(** * MAVProxy: link multiplexing, journalling and telemetry scaling

    A shallow embedding of the parts of [mavproxy.py] that decide the
    link-health policy, the master selector, the parsed-log record
    layout, the waypoint upload time-out, the battery curve and the PWM
    scaling, together with the properties checked against them.

    Numbers.  Python [int]s are unbounded and are modelled by [Z], with
    [Z.land], [Z.lor] and [Z.lnot] for [&], [|] and [~].  Python [float]s
    that are numbers are modelled by exact rationals [Q]: the comparisons
    and the affine arithmetic of the program are kept, binary64 rounding
    and overflow are not.  Two places keep more of the floats.  The microsecond
    timestamps are integers to which the program adds a float constant
    before comparing ([usec + 6.0e7 < highest_usec]): that sum is
    modelled with its binary64 rounding ([py_add_float]), which leaves
    it exact below 2^53.  The vehicle's parameters arrive as floats that
    need not be numbers: [PyFloat] adds the infinities and NaN, and
    [PyFloat.scale_rc] is [scale_rc] over such parameters.

    Effects.  The module-level [mpstate] is an explicit record that every
    function receives and returns; [say], [print] and the frames written
    to a link are collected in a list of [event]s; Python exceptions are
    a [result]. *)

From Stdlib Require Import ZArith QArith Qabs Qminmax Bool Lia Lqa.
From Stdlib Require Import Strings.String Strings.Byte.
From stdpp Require Import base list strings gmap.

Local Open Scope Z_scope.

(** ** Python values *)

(** Exceptions the modelled code can raise. *)
Inductive exn : Type :=
  | ZeroDivisionError
  | IndexError
  | StructError.

Inductive result (A : Type) : Type :=
  | Ok (a : A)
  | Raise (e : exn).
Arguments Ok {A} a.
Arguments Raise {A} e.

(** [x > y] and [x < y] on floats. *)
Definition Qgtb (x y : Q) : bool := negb (Qle_bool x y).
Definition Qltb (x y : Q) : bool := negb (Qle_bool y x).

(** [x / y] on floats: a zero divisor raises. *)
Definition py_div (x y : Q) : result Q :=
  if Qeq_bool y 0 then Raise ZeroDivisionError else Ok (x / y)%Q.

(** ** Battery curve *)

(** [vcell_to_battery_percent], branch for branch.  The third test is the
    source's: it repeats [vcell > 3.81]. *)
Definition vcell_to_battery_percent (vcell : Q) : Q :=
  (if Qgtb vcell 4.1 then 100.0
   else if Qgtb vcell 3.81 then 17.0 + 83.0 * (vcell - 3.81) / (4.1 - 3.81)
   else if Qgtb vcell 3.81 then 0.0 + 17.0 * (vcell - 3.20) / (3.81 - 3.20)
   else 0.0)%Q.

(** The curve as the specification words it: the third segment starts at
    3.20 volts. *)
Definition battery_curve_spec (vcell : Q) : Q :=
  (if Qgtb vcell 4.1 then 100.0
   else if Qgtb vcell 3.81 then 17 + 83 * (vcell - 3.81) / (4.1 - 3.81)
   else if Qgtb vcell 3.20 then 17 * (vcell - 3.20) / (3.81 - 3.20)
   else 0.0)%Q.

(** ** The proxy state *)

(** The attributes [mavproxy.py] attaches to each master connection when
    it opens it: [linknum], [linkerror], [link_delayed], [last_heartbeat]
    and [highest_usec]. *)
Module Link.
Record t : Type := mk {
  linknum : Z;
  linkerror : bool;
  link_delayed : bool;
  last_heartbeat : Q;
  highest_usec : Z
}.

Definition set_linkerror (b : bool) (m : t) : t :=
  mk (linknum m) b (link_delayed m) (last_heartbeat m) (highest_usec m).
Definition set_link_delayed (b : bool) (m : t) : t :=
  mk (linknum m) (linkerror m) b (last_heartbeat m) (highest_usec m).
Definition set_highest_usec (u : Z) (m : t) : t :=
  mk (linknum m) (linkerror m) (link_delayed m) (last_heartbeat m) u.
End Link.

(** A mission item held by the waypoint loader, as its encoded frame. *)
Definition waypoint : Type := list byte.

(** The fields of [MPSettings] read by the modelled functions. *)
Record MPSettings : Type := mkSettings {
  link : Z;
  numcells : Z
}.

(** The fields of [MPStatus] read or written by the modelled functions.
    [AP_ADC] stands for the entry of the [msgs] dictionary under the key
    ['AP_ADC']: [None] when the key is absent, otherwise the [adc2] field
    of the stored message.  [wploader] is the loader's list of mission
    items: [count()] is its length and [wp(i)] its [i]-th element. *)
Module Status.
Record t : Type := mk {
  AP_ADC : option Z;
  wploader : list waypoint;
  loading_waypoints : bool;
  loading_waypoint_lasttime : Q;
  battery_level : Q;
  avionics_battery_level : Q;
  last_heartbeat : Q;
  heartbeat_error : bool;
  highest_usec : Z
}.

Definition set_loading_waypoints (b : bool) (s : t) : t :=
  mk (AP_ADC s) (wploader s) b (loading_waypoint_lasttime s)
     (battery_level s) (avionics_battery_level s) (last_heartbeat s)
     (heartbeat_error s) (highest_usec s).
Definition set_loading_waypoint_lasttime (x : Q) (s : t) : t :=
  mk (AP_ADC s) (wploader s) (loading_waypoints s) x
     (battery_level s) (avionics_battery_level s) (last_heartbeat s)
     (heartbeat_error s) (highest_usec s).
Definition set_battery_level (x : Q) (s : t) : t :=
  mk (AP_ADC s) (wploader s) (loading_waypoints s)
     (loading_waypoint_lasttime s) x (avionics_battery_level s)
     (last_heartbeat s) (heartbeat_error s) (highest_usec s).
Definition set_avionics_battery_level (x : Q) (s : t) : t :=
  mk (AP_ADC s) (wploader s) (loading_waypoints s)
     (loading_waypoint_lasttime s) (battery_level s) x
     (last_heartbeat s) (heartbeat_error s) (highest_usec s).
Definition set_heartbeat_error (b : bool) (s : t) : t :=
  mk (AP_ADC s) (wploader s) (loading_waypoints s)
     (loading_waypoint_lasttime s) (battery_level s)
     (avionics_battery_level s) (last_heartbeat s) b (highest_usec s).
Definition set_highest_usec (u : Z) (s : t) : t :=
  mk (AP_ADC s) (wploader s) (loading_waypoints s)
     (loading_waypoint_lasttime s) (battery_level s)
     (avionics_battery_level s) (last_heartbeat s) (heartbeat_error s) u.
End Status.

(** [MPState]: settings, status, the ordered list of master links, the
    parameter dictionary and the queue of the parsed log ([None] until
    the logs are opened).  The dictionary holds parameters that are
    numbers; [PyFloat] below has the dictionary whose values may also be
    infinite or NaN. *)
Record MPState : Type := mkState {
  settings : MPSettings;
  status : Status.t;
  mav_master : list Link.t;
  mav_param : gmap string Q;
  logqueue : option (list (list byte))
}.

Definition set_settings (x : MPSettings) (mp : MPState) : MPState :=
  mkState x (status mp) (mav_master mp) (mav_param mp) (logqueue mp).
Definition set_status (x : Status.t) (mp : MPState) : MPState :=
  mkState (settings mp) x (mav_master mp) (mav_param mp) (logqueue mp).
Definition set_mav_master (x : list Link.t) (mp : MPState) : MPState :=
  mkState (settings mp) (status mp) x (mav_param mp) (logqueue mp).
Definition set_logqueue (x : option (list (list byte))) (mp : MPState)
  : MPState :=
  mkState (settings mp) (status mp) (mav_master mp) (mav_param mp) x.

(** ** Output *)

(** An argument of a [%] format. *)
Inductive pyval : Type :=
  | PInt (n : Z)
  | PWaypoint (w : waypoint).

(** What a function lets out: a spoken announcement, a printed line (both
    as the format string and its arguments) or a frame written to the
    master at the given position of [mav_master]. *)
Inductive event : Type :=
  | Say (fmt : string) (args : list pyval)
  | Print (fmt : string) (args : list pyval)
  | MavSend (master : nat) (w : waypoint).

(** ** Sums of an integer and a float constant *)

(** The multiple of [2^k] nearest to [n >= 0]; of two that are equally
    near, the even one. *)
Definition round_half_even (n k : Z) : Z :=
  let q := n / 2 ^ k in
  let r := n mod 2 ^ k in
  if (2 * r <? 2 ^ k) || ((2 * r =? 2 ^ k) && Z.even q)
  then q * 2 ^ k
  else (q + 1) * 2 ^ k.

(** [float(n)] for an integer [n], given by its value, which is again
    an integer: the nearest number with 53 significant bits, as IEEE 754
    and CPython 2.7 round.  [k] is the number of low bits that do not
    fit.  The timestamps are unsigned 64-bit fields, far inside the
    range of binary64. *)
Definition py_float (n : Z) : Z :=
  let k := Z.log2 (Z.abs n) - 52 in
  if k <=? 0 then n else Z.sgn n * round_half_even (Z.abs n) k.

(** [n + c] for an integer [n] and a float constant [c] whose value is
    a whole number, as in [usec + 6.0e7]: [n] is converted to a float
    and the sum is rounded to a float. *)
Definition py_add_float (n c : Z) : Z := py_float (py_float n + c).

(** ** Link delay and wrap detection *)

(** [handle_usec_timestamp(m, master)].  The message enters only through
    [m.usec]; [master] is an element of [mpstate.mav_master] and is given
    by its position, so that writing to it writes to the list.  [None]
    stands for a position that holds no link, which the program never
    passes.  The three sums are float sums; Python compares their result
    with the integer [highest_usec] exactly. *)
Definition handle_usec_timestamp (usec : Z) (master : nat) (mp : MPState)
  : option (MPState * list event) :=
  match mav_master mp !! master with
  | None => None
  | Some m =>
    if py_add_float usec 60000000 <? Link.highest_usec m then
      let st := Status.set_highest_usec usec (status mp) in
      let links :=
        (fun mm => Link.set_highest_usec usec
                     (Link.set_link_delayed false mm))
        <$> mav_master mp in
      Some (set_mav_master links (set_status st mp),
            [Say "Time has wrapped" [];
             Print "usec %u highest_usec %u"
                   [PInt usec; PInt (Link.highest_usec m)]])
    else
      let m := Link.set_highest_usec usec m in
      let st :=
        if usec >? Status.highest_usec (status mp)
        then Status.set_highest_usec usec (status mp)
        else status mp in
      if (py_add_float usec 1000000 <? Status.highest_usec st)
         && negb (Link.link_delayed m) then
        Some (set_mav_master
                (<[master := Link.set_link_delayed true m]> (mav_master mp))
                (set_status st mp),
              [Say "link %u delayed" [PInt (Link.linknum m + 1)]])
      else if (py_add_float usec 500000 >? Status.highest_usec st)
              && Link.link_delayed m then
        Some (set_mav_master
                (<[master := Link.set_link_delayed false m]> (mav_master mp))
                (set_status st mp),
              [Say "link %u OK" [PInt (Link.linknum m + 1)]])
      else
        Some (set_mav_master (<[master := m]> (mav_master mp))
                             (set_status st mp),
              [])
  end.

(** [handle_usec_timestamp] run on the messages of a list in order, each
    given by its [usec] and the position of the link it arrived on. *)
Fixpoint handle_usec_timestamps (msgs : list (Z * nat)) (mp : MPState)
  : option MPState :=
  match msgs with
  | [] => Some mp
  | (usec, master) :: rest =>
    match handle_usec_timestamp usec master mp with
    | None => None
    | Some (mp', _) => handle_usec_timestamps rest mp'
    end
  end.

(** ** Heartbeat audit *)

(** The body of the loop of [check_link_status] for one master. *)
Definition check_master (tnow : Q) (master : Link.t)
  : Link.t * list event :=
  if negb (Link.linkerror master)
     && Qgtb tnow (Link.last_heartbeat master + 5) then
    (Link.set_linkerror true master,
     [Say "link %u down" [PInt (Link.linknum master + 1)]])
  else (master, []).

(** [for master in mpstate.mav_master: ...], in list order. *)
Fixpoint check_masters (tnow : Q) (masters : list Link.t)
  : list Link.t * list event :=
  match masters with
  | [] => ([], [])
  | master :: rest =>
    let '(master', out) := check_master tnow master in
    let '(rest', out') := check_masters tnow rest in
    (master' :: rest', out ++ out')
  end.

(** [check_link_status()], with [tnow] the reading of [time.time()]. *)
Definition check_link_status (tnow : Q) (mp : MPState)
  : MPState * list event :=
  let '(st, out) :=
    if negb (Qeq_bool (Status.last_heartbeat (status mp)) 0)
       && Qgtb tnow (Status.last_heartbeat (status mp) + 5) then
      (Status.set_heartbeat_error true (status mp),
       [Say "no heartbeat" []])
    else (status mp, []) in
  let '(links, out') := check_masters tnow (mav_master mp) in
  (set_mav_master links (set_status st mp), out ++ out').

(** ** Master selector *)

(** [l[i]] for a Python list: a negative index counts from the end, an
    index outside [-len(l) .. len(l)-1] raises [IndexError].  The position
    is returned with the element: it is the identity of the object. *)
Definition py_getitem {A : Type} (l : list A) (i : Z) : result (nat * A) :=
  let j := if i <? 0 then i + Z.of_nat (length l) else i in
  if j <? 0 then Raise IndexError
  else match l !! Z.to_nat j with
       | Some x => Ok (Z.to_nat j, x)
       | None => Raise IndexError
       end.

(** [MPState.master()].  The result is the position of the chosen link in
    [mav_master]; the state is returned as well, since [settings.link] may
    have been rewritten, also when the lookup raises. *)
Definition master (mp : MPState) : result nat * MPState :=
  let mp :=
    if link (settings mp) >? Z.of_nat (length (mav_master mp))
    then set_settings (mkSettings 1 (numcells (settings mp))) mp
    else mp in
  match py_getitem (mav_master mp) (link (settings mp) - 1) with
  | Raise e => (Raise e, mp)
  | Ok (_, preferred) =>
    if negb (Link.linkerror preferred) then
      match py_getitem (mav_master mp) (link (settings mp) - 1) with
      | Raise e => (Raise e, mp)
      | Ok (i, _) => (Ok i, mp)
      end
    else
      match list_find (fun m => Link.linkerror m = false) (mav_master mp) with
      | Some (i, _) => (Ok i, mp)
      | None =>
        match py_getitem (mav_master mp) (link (settings mp) - 1) with
        | Raise e => (Raise e, mp)
        | Ok (i, _) => (Ok i, mp)
        end
      end
  end.

(** ** Waypoint upload *)

(** [process_waypoint_request(m, master)].  The request enters through
    [m.seq] (an unsigned field of the frame); [tnow] and [tsent] are the
    two readings of [time.time()], at the time-out test and after the
    frame is sent.  The test [m.seq >= count()] is the lookup of [m.seq]
    in the loader's list failing. *)
Definition process_waypoint_request
    (seq : nat) (master : nat) (tnow tsent : Q) (mp : MPState)
  : MPState * list event :=
  let st := status mp in
  if negb (Status.loading_waypoints st)
     || Qgtb tnow (Status.loading_waypoint_lasttime st + 10.0) then
    (set_status (Status.set_loading_waypoints false st) mp,
     [Print "not loading waypoints" []])
  else
    let count := length (Status.wploader st) in
    match Status.wploader st !! seq with
    | None =>
      (mp, [Print "Request for bad waypoint %u (max %u)"
                  [PInt (Z.of_nat seq); PInt (Z.of_nat count)]])
    | Some w =>
      let st := Status.set_loading_waypoint_lasttime tsent st in
      let sent := [MavSend master w;
                   Print "Sent waypoint %u : %s"
                         [PInt (Z.of_nat seq); PWaypoint w]] in
      if Z.of_nat seq =? Z.of_nat count - 1 then
        (set_status (Status.set_loading_waypoints false st) mp,
         sent ++ [Print "Sent all %u waypoints" [PInt (Z.of_nat count)]])
      else (set_status st mp, sent)
    end.

(** ** Battery *)

(** [battery_update(SYS_STATUS)].  The message enters through
    [SYS_STATUS.battery_remaining].  The flight battery level is written
    before anything can raise, so the state is returned in both cases. *)
Definition battery_update (battery_remaining : Z) (mp : MPState)
  : result unit * MPState :=
  let st :=
    Status.set_battery_level (inject_Z battery_remaining / 10.0)%Q
                             (status mp) in
  let mp := set_status st mp in
  match Status.AP_ADC st with
  | None => (Ok tt, mp)
  | Some adc2 =>
    let rawvalue := inject_Z adc2 in
    let INPUT_VOLTAGE := 4.68%Q in
    let VOLT_DIV_RATIO := 3.56%Q in
    let voltage :=
      (rawvalue * (INPUT_VOLTAGE / 1024.0) * VOLT_DIV_RATIO)%Q in
    match py_div voltage (inject_Z (numcells (settings mp))) with
    | Raise e => (Raise e, mp)
    | Ok vcell =>
      let avionics_battery_level := vcell_to_battery_percent vcell in
      let previous := Status.avionics_battery_level st in
      if Qeq_bool previous (-1)
         || Qgtb (Qabs (avionics_battery_level - previous)) 70 then
        (Ok tt,
         set_status
           (Status.set_avionics_battery_level avionics_battery_level st) mp)
      else
        (Ok tt,
         set_status
           (Status.set_avionics_battery_level
              ((95 * previous + 5 * avionics_battery_level) / 100)%Q st) mp)
    end
  end.

(** ** PWM scaling *)

(** [get_mav_param(param, default)]. *)
Definition get_mav_param (param : string) (default : Q) (mp : MPState) : Q :=
  match mav_param mp !! param with
  | Some v => v
  | None => default
  end.

(** [scale_rc(servo, min, max, param)] when the parameters are numbers.
    [servo] is the integer PWM value of the frame; the limits come from
    the parameter dictionary, which holds rationals here.
    [PyFloat.scale_rc] below is the same function over parameters that
    may also be infinite or NaN. *)
Definition scale_rc (servo : Z) (min max : Q) (param : string)
    (mp : MPState) : result Q :=
  let min_pwm := get_mav_param (param +:+ "_MIN") 0 mp in
  let max_pwm := get_mav_param (param +:+ "_MAX") 0 mp in
  if Qeq_bool min_pwm 0 || Qeq_bool max_pwm 0 then Ok 0%Q
  else
    let scaled :=
      if Qeq_bool max_pwm min_pwm then Ok 0.0%Q
      else py_div (inject_Z servo - min_pwm) (max_pwm - min_pwm) in
    match scaled with
    | Raise e => Raise e
    | Ok p =>
      let v := (min + p * (max - min))%Q in
      let v := if Qltb v min then min else v in
      let v := if Qgtb v max then max else v in
      Ok v
    end.

(** ** PWM scaling over floats that need not be numbers *)

(** A Python [float]: a number (an exact rational, as elsewhere), an
    infinity or NaN.  The sign of a zero is not kept.  The operations
    are those of IEEE 754 on the values that are not numbers, and
    Python's on a zero divisor. *)
Module PyFloat.
Inductive t : Type :=
  | Finite (q : Q)
  | Infinity (negative : bool)
  | NaN.

(** [x == y]: NaN equals nothing, itself included. *)
Definition eqb (x y : t) : bool :=
  match x, y with
  | Finite a, Finite b => Qeq_bool a b
  | Infinity s, Infinity s' => Bool.eqb s s'
  | _, _ => false
  end.

(** [x < y]: false as soon as one side is NaN. *)
Definition ltb (x y : t) : bool :=
  match x, y with
  | Finite a, Finite b => Qltb a b
  | Finite _, Infinity s' => negb s'
  | Infinity s, Finite _ => s
  | Infinity s, Infinity s' => s && negb s'
  | _, _ => false
  end.

(** [x > y]. *)
Definition gtb (x y : t) : bool := ltb y x.

Definition add (x y : t) : t :=
  match x, y with
  | Finite a, Finite b => Finite (a + b)
  | Finite _, Infinity s' => Infinity s'
  | Infinity s, Finite _ => Infinity s
  | Infinity s, Infinity s' => if Bool.eqb s s' then Infinity s else NaN
  | _, _ => NaN
  end.

Definition sub (x y : t) : t :=
  match x, y with
  | Finite a, Finite b => Finite (a - b)
  | Finite _, Infinity s' => Infinity (negb s')
  | Infinity s, Finite _ => Infinity s
  | Infinity s, Infinity s' => if Bool.eqb s s' then NaN else Infinity s
  | _, _ => NaN
  end.

Definition mul (x y : t) : t :=
  match x, y with
  | Finite a, Finite b => Finite (a * b)
  | Finite a, Infinity s' =>
    if Qeq_bool a 0 then NaN else Infinity (xorb (Qltb a 0) s')
  | Infinity s, Finite b =>
    if Qeq_bool b 0 then NaN else Infinity (xorb s (Qltb b 0))
  | Infinity s, Infinity s' => Infinity (xorb s s')
  | _, _ => NaN
  end.

(** [x / y]: a zero divisor raises; NaN and the infinities do not. *)
Definition div (x y : t) : result t :=
  match x, y with
  | _, Finite b =>
    if Qeq_bool b 0 then Raise ZeroDivisionError
    else Ok match x with
            | Finite a => Finite (a / b)
            | Infinity s => Infinity (xorb s (Qltb b 0))
            | NaN => NaN
            end
  | Finite _, Infinity _ => Ok (Finite 0)
  | Infinity _, Infinity _ => Ok NaN
  | _, _ => Ok NaN
  end.

(** The [PARAM_VALUE] branch of [master_callback], as far as the
    dictionary goes: [m.param_value], a 32-bit float of the vehicle, is
    stored under [m.param_id] as it is, NaN included. *)
Definition on_param_value (param_id : string) (param_value : t)
    (params : gmap string t) : gmap string t :=
  <[param_id := param_value]> params.

(** [get_mav_param(param, default)] on such a dictionary. *)
Definition get_mav_param (param : string) (default : t)
    (params : gmap string t) : t :=
  match params !! param with
  | Some v => v
  | None => default
  end.

(** [scale_rc(servo, min, max, param)] on such a dictionary.  The
    output range is given by numbers, as the callers give it. *)
Definition scale_rc (servo : Z) (min max : Q) (param : string)
    (params : gmap string t) : result t :=
  let min_pwm := get_mav_param (param +:+ "_MIN") (Finite 0) params in
  let max_pwm := get_mav_param (param +:+ "_MAX") (Finite 0) params in
  if eqb min_pwm (Finite 0) || eqb max_pwm (Finite 0) then Ok (Finite 0)
  else
    let scaled :=
      if eqb max_pwm min_pwm then Ok (Finite 0.0)
      else div (sub (Finite (inject_Z servo)) min_pwm) (sub max_pwm min_pwm) in
    match scaled with
    | Raise e => Raise e
    | Ok p =>
      let v := add (Finite min) (mul p (sub (Finite max) (Finite min))) in
      let v := if ltb v (Finite min) then Finite min else v in
      let v := if gtb v (Finite max) then Finite max else v in
      Ok v
    end.

(** [x] is a number between [lo] and [hi]. *)
Definition in_range (x : t) (lo hi : Q) : Prop :=
  match x with
  | Finite v => (lo <= v <= hi)%Q
  | _ => False
  end.
End PyFloat.

(** ** Parsed log *)

Definition byte_of_Z (z : Z) : byte :=
  match Byte.of_N (Z.to_N (z mod 256)) with
  | Some b => b
  | None => "000"%byte
  end.

Definition Z_of_byte (b : byte) : Z := Z.of_N (Byte.to_N b).

(** The [n] low-order bytes of [v], most significant first. *)
Fixpoint be_bytes (n : nat) (v : Z) : list byte :=
  match n with
  | O => []
  | S k => be_bytes k (v / 256) ++ [byte_of_Z v]
  end.

(** The number a big-endian byte string stands for. *)
Definition be_value (bs : list byte) : Z :=
  fold_left (fun acc b => acc * 256 + Z_of_byte b) bs 0.

(** [struct.pack('>Q', v)]: eight bytes, or [struct.error] when [v] is not
    an unsigned 64-bit number. *)
Definition pack_Q (v : Z) : result (list byte) :=
  if (0 <=? v) && (v <? 2 ^ 64) then Ok (be_bytes 8 v)
  else Raise StructError.

(** The time stamp of a record of the parsed log:
    [(usec & ~3) | master.linknum]. *)
Definition log_stamp (usec : Z) (master : Link.t) : Z :=
  Z.lor (Z.land usec (Z.lnot 3)) (Link.linknum master).

(** The stamp as the specification words it: the low two bits of the
    time are overwritten by [link_num & 0x3]. *)
Definition log_stamp_spec (usec : Z) (link_num : Z) : Z :=
  Z.lor (Z.land usec (Z.lnot 3)) (Z.land link_num 3).

(** The journalling step of [master_callback]: [mtype] is
    [m.get_type()], [msgbuf] is [m.get_msgbuf().tostring()], [now_usec] is
    the reading of [get_usec()]. *)
Definition journal (mtype : string) (msgbuf : list byte) (master : Link.t)
    (now_usec : Z) (mp : MPState) : result unit * MPState :=
  if negb (String.eqb mtype "BAD_DATA") then
    match logqueue mp with
    | Some queue =>
      let usec := now_usec in
      let usec := log_stamp usec master in
      match pack_Q usec with
      | Raise e => (Raise e, mp)
      | Ok header =>
        (Ok tt, set_logqueue (Some (queue ++ [header ++ msgbuf])) mp)
      end
    | None => (Ok tt, mp)
    end
  else (Ok tt, mp).

(** Reading a record of the parsed log back: the time stamp and the
    frame. *)
Definition parse_record (record : list byte) : Z * list byte :=
  (be_value (take 8 record), drop 8 record).

(** ** Sample states *)

(** A link as [mavproxy.py] opens it (no error, heartbeat never seen),
    with the given number, delay flag and highest time stamp. *)
Definition sample_link (n : Z) (delayed : bool) (highest : Z) : Link.t :=
  Link.mk n false delayed 0 highest.

(** The status as [MPStatus.__init__] leaves it, with an empty loader. *)
Definition initial_status : Status.t :=
  Status.mk None [] false 0 (-1) (-1) 0 false 0.

(** A state with the default settings, the given links and the given
    set-wide highest time stamp; the logs are open and empty. *)
Definition sample_state (links : list Link.t) (highest : Z) : MPState :=
  mkState (mkSettings 1 0) (Status.set_highest_usec highest initial_status)
          links ∅ (Some []).

(** Two links; the first one has seen 5*10^8 microseconds. *)
Definition wrap_state : MPState :=
  sample_state [sample_link 0 true 500000000; sample_link 1 true 1000000]
               500000000.

(** One link that has seen 10^7 microseconds. *)
Definition steady_state : MPState :=
  sample_state [sample_link 0 false 10000000] 10000000.

(** Two links as they are opened, before any message. *)
Definition fresh_state : MPState :=
  sample_state [sample_link 0 false 0; sample_link 1 false 0] 0.

(** The state two messages lead to from [fresh_state]: one stamped
    2000000 on the second link, then one stamped 900000 on the first
    link, which is thereby marked as delayed. *)
Definition lagging_state : MPState :=
  sample_state [sample_link 0 true 900000; sample_link 1 false 2000000]
               2000000.

(** The vehicle was last heard at second 1, on the only link; nothing has
    been reported lost yet. *)
Definition silent_state : MPState :=
  mkState (mkSettings 1 0)
          (Status.mk None [] false 0 (-1) (-1) 1 false 0)
          [Link.mk 0 false false 1 0] ∅ (Some []).

(** An upload of two mission items started at second 0. *)
Definition uploading_state : MPState :=
  mkState (mkSettings 1 0)
          (Status.mk None [["001"%byte]; ["002"%byte]] true 0 (-1) (-1) 0
                     false 0)
          [sample_link 0 false 0] ∅ (Some []).

(** [AP_ADC] telemetry has arrived with [adc2 = 700]; [numcells] is the
    given setting. *)
Definition adc_state (cells : Z) : MPState :=
  mkState (mkSettings 1 cells)
          (Status.mk (Some 700) [] false 0 (-1) (-1) 0 false 0)
          [sample_link 0 false 0] ∅ (Some []).

(** The fifth master link ([linknum = 4]) and a three-byte frame. *)
Definition fifth_link : Link.t := sample_link 4 false 0.
Definition sample_frame : list byte := ["254"%byte; "003"%byte; "000"%byte].

(** One link, and the operator has set [link] to -1. *)
Definition negative_link_state : MPState :=
  mkState (mkSettings (-1) 0) initial_status [sample_link 0 false 0] ∅
          (Some []).

(** Three links, the first two down, and a preferred index of 7. *)
Definition failover_state : MPState :=
  mkState (mkSettings 7 0) initial_status
          [Link.mk 0 true false 0 0; Link.mk 1 true false 0 0;
           Link.mk 2 false false 0 0]
          ∅ (Some []).

(** [RC1_MIN] and [RC1_MAX] have both been received as 1000. *)
Definition flat_rc_state : MPState :=
  mkState (mkSettings 1 0) initial_status [sample_link 0 false 0]
          (<["RC1_MIN" := 1000%Q]> (<["RC1_MAX" := 1000%Q]> ∅)) (Some []).

(** The parameters after the vehicle has sent [RC1_MIN] as NaN and
    [RC1_MAX] as 2000. *)
Definition nan_rc_params : gmap string PyFloat.t :=
  PyFloat.on_param_value "RC1_MAX" (PyFloat.Finite 2000)
    (PyFloat.on_param_value "RC1_MIN" PyFloat.NaN ∅).

(** The parameters after the vehicle has sent [RC3_MIN] as 1000 and
    [RC3_MAX] as 2000. *)
Definition throttle_rc_params : gmap string PyFloat.t :=
  PyFloat.on_param_value "RC3_MAX" (PyFloat.Finite 2000)
    (PyFloat.on_param_value "RC3_MIN" (PyFloat.Finite 1000) ∅).

(** [RC3_MIN = 1000] and [RC3_MAX = 2000]. *)
Definition throttle_rc_state : MPState :=
  mkState (mkSettings 1 0) initial_status [sample_link 0 false 0]
          (<["RC3_MIN" := 1000%Q]> (<["RC3_MAX" := 2000%Q]> ∅)) (Some []).

(** * Further parts of the program *)

From Stdlib Require Import Qround.

(** ** Link report *)

(** A line printed by [cmd_link]: the link is down, delayed by so many
    seconds, or OK with its packet count and delay. *)
Inductive link_line : Type :=
  | LinkDown (n : Z)
  | LinkDelayed (n : Z) (linkdelay : Q)
  | LinkOK (n : Z) (packets : Z) (linkdelay : Q).

(** The delay a line reports, if it reports one. *)
Definition line_delay (line : link_line) : option Q :=
  match line with
  | LinkDown _ => None
  | LinkDelayed _ d => Some d
  | LinkOK _ _ d => Some d
  end.

(** The body of the loop of [cmd_link] for one master; [MasterIn] is the
    list [mpstate.status.counters['MasterIn']]. *)
Definition link_report (MasterIn : list Z) (mp : MPState) (master : Link.t)
  : result link_line :=
  let linkdelay :=
    (inject_Z (Status.highest_usec (status mp) - Link.highest_usec master)
     * 1e-6)%Q in
  if Link.linkerror master then Ok (LinkDown (Link.linknum master + 1))
  else if Link.link_delayed master then
    Ok (LinkDelayed (Link.linknum master + 1) linkdelay)
  else
    match py_getitem MasterIn (Link.linknum master) with
    | Raise e => Raise e
    | Ok (_, packets) =>
      Ok (LinkOK (Link.linknum master + 1) packets linkdelay)
    end.

(** [cmd_link(args, rl)]: the lines printed, in link order, up to the
    first exception if one is raised. *)
Fixpoint cmd_link_lines (MasterIn : list Z) (mp : MPState)
    (masters : list Link.t) : list link_line * result unit :=
  match masters with
  | [] => ([], Ok tt)
  | master :: rest =>
    match link_report MasterIn mp master with
    | Raise e => ([], Raise e)
    | Ok line =>
      let '(lines, r) := cmd_link_lines MasterIn mp rest in
      (line :: lines, r)
    end
  end.

Definition cmd_link (MasterIn : list Z) (mp : MPState)
  : list link_line * result unit :=
  cmd_link_lines MasterIn mp (mav_master mp).

(** ** Links and the set-wide time stamp *)

(** No link has seen a later time stamp than the set as a whole. *)
Definition links_behind (mp : MPState) : Prop :=
  Forall (fun m => Link.highest_usec m <= Status.highest_usec (status mp))
         (mav_master mp).

(** ** Heartbeats *)

(** The vehicle the proxy talks to: [mpstate.status.target_system] and
    [mpstate.status.target_component], both -1 until a heartbeat is
    seen. *)
Record Target : Type := mkTarget {
  target_system : Z;
  target_component : Z
}.

(** The [HEARTBEAT] branch of [master_callback]: [srcSystem] and
    [srcComponent] are [m.get_srcSystem()] and [m.get_srcComponent()],
    [master] is the position of the link the message arrived on and
    [tnow] is the reading of [time.time()].  [master_callback] returns
    before this branch when the link is delayed: it prints
    "skip delayed" and drops the message.  So the branch runs only on a
    link whose [link_delayed] is false, and what is proved of its effect
    on the proxy takes that as a hypothesis. *)
Definition on_heartbeat (srcSystem srcComponent : Z) (master : nat)
    (tnow : Q) (target : Target) (mp : MPState)
  : option (Target * MPState * list event) :=
  match mav_master mp !! master with
  | None => None
  | Some m =>
    let '(target, out1) :=
      if negb (target_system target =? srcSystem)
         || negb (target_component target =? srcComponent) then
        (mkTarget srcSystem srcComponent,
         [Say "online system %u component %u"
              [PInt srcSystem; PInt srcComponent]])
      else (target, []) in
    let '(st, out2) :=
      if Status.heartbeat_error (status mp) then
        (Status.set_heartbeat_error false (status mp),
         [Say "heartbeat OK" []])
      else (status mp, []) in
    let '(m, out3) :=
      if Link.linkerror m then
        (Link.set_linkerror false m,
         [Say "link %u OK" [PInt (Link.linknum m + 1)]])
      else (m, []) in
    let st :=
      Status.mk (Status.AP_ADC st) (Status.wploader st)
                (Status.loading_waypoints st)
                (Status.loading_waypoint_lasttime st)
                (Status.battery_level st) (Status.avionics_battery_level st)
                tnow (Status.heartbeat_error st) (Status.highest_usec st) in
    let m :=
      Link.mk (Link.linknum m) (Link.linkerror m) (Link.link_delayed m)
              (Status.last_heartbeat st) (Link.highest_usec m) in
    Some (target,
          set_mav_master (<[master := m]> (mav_master mp))
                         (set_status st mp),
          out1 ++ out2 ++ out3)
  end.

(** No target yet. *)
Definition no_target : Target := mkTarget (-1) (-1).

(** Two links, the preferred first one marked down after a silence, the
    engine-wide heartbeat reported lost. *)
Definition lost_state : MPState :=
  mkState (mkSettings 1 0)
          (Status.mk None [] false 0 (-1) (-1) 1 true 0)
          [Link.mk 0 true false 1 0; Link.mk 1 false false 20 0] ∅
          (Some []).

(** ** Sequences of waypoint requests *)

(** [process_waypoint_request] run on the requests of a list in order,
    each given by its [seq] and its two clock readings; the output is
    collected. *)
Fixpoint serve_requests (reqs : list (nat * Q * Q)) (master : nat)
    (mp : MPState) : MPState * list event :=
  match reqs with
  | [] => (mp, [])
  | (seq, tnow, tsent) :: rest =>
    let '(mp1, out1) := process_waypoint_request seq master tnow tsent mp in
    let '(mp2, out2) := serve_requests rest master mp1 in
    (mp2, out1 ++ out2)
  end.

(** Requests for the items [k], [k+1], ... at the given times. *)
Fixpoint requests_from (k : nat) (times : list (Q * Q))
  : list (nat * Q * Q) :=
  match times with
  | [] => []
  | (tnow, tsent) :: rest => (k, tnow, tsent) :: requests_from (S k) rest
  end.

(** Every request comes at most ten seconds after the previous activity,
    which is [last] for the first one and the time the previous frame
    was sent for the others. *)
Fixpoint in_time (last : Q) (times : list (Q * Q)) : Prop :=
  match times with
  | [] => True
  | (tnow, tsent) :: rest => (tnow <= last + 10)%Q /\ in_time tsent rest
  end.

(** The frames written to masters, in order. *)
Definition sent_frames (out : list event) : list (nat * waypoint) :=
  omap (fun e => match e with
                 | MavSend master w => Some (master, w)
                 | _ => None
                 end) out.

(** ** RC override *)

(** [l[i] = v] for a Python list: a negative index counts from the end,
    an index outside [-len(l) .. len(l)-1] raises [IndexError]. *)
Definition py_setitem {A : Type} (l : list A) (i : Z) (v : A)
  : result (list A) :=
  let j := if i <? 0 then i + Z.of_nat (length l) else i in
  if (j <? 0) || (Z.of_nat (length l) <=? j) then Raise IndexError
  else Ok (<[Z.to_nat j := v]> l).

(** The [n] low-order bytes of [v], least significant first. *)
Fixpoint le_bytes (n : nat) (v : Z) : list byte :=
  match n with
  | O => []
  | S k => byte_of_Z v :: le_bytes k (v / 256)
  end.

(** The number a little-endian byte string stands for. *)
Fixpoint le_value (bs : list byte) : Z :=
  match bs with
  | [] => 0
  | b :: rest => Z_of_byte b + 256 * le_value rest
  end.

(** The unsigned 16-bit fields of a ['<H...H'] format, one after the
    other; a value that is not an unsigned 16-bit number raises
    [struct.error]. *)
Fixpoint pack_Hs (values : list Z) : result (list byte) :=
  match values with
  | [] => Ok []
  | v :: rest =>
    if (0 <=? v) && (v <? 2 ^ 16) then
      match pack_Hs rest with
      | Ok bs => Ok (le_bytes 2 v ++ bs)
      | Raise e => Raise e
      end
    else Raise StructError
  end.

(** [struct.pack('<HHHHHHHH', *values)]: the format takes exactly eight
    values. *)
Definition pack_8H (values : list Z) : result (list byte) :=
  if (length values =? 8)%nat then pack_Hs values else Raise StructError.

(** Reading consecutive little-endian 16-bit fields back. *)
Fixpoint unpack_Hs (n : nat) (bs : list byte) : list Z :=
  match n with
  | O => []
  | S k => le_value (take 2 bs) :: unpack_Hs k (drop 2 bs)
  end.

(** What the RC commands let out: a packet written to the SITL output,
    an [RC_CHANNELS_OVERRIDE] frame handed to the chosen master with the
    target and the eight channel values, or a printed line. *)
Inductive rc_event : Type :=
  | SitlWrite (buf : list byte)
  | RcChannelsOverrideSend (master : nat)
      (target_system target_component : Z) (channels : list Z)
  | RcPrint (fmt : string) (args : list Z).

(** [send_rc_override()].  [sitl] tells whether [mpstate.sitl_output] is
    set, [override] is [mpstate.status.override].  The state is returned
    since [master()] may rewrite [settings.link]. *)
Definition send_rc_override (sitl : bool) (target : Target)
    (override : list Z) (mp : MPState)
  : result (list rc_event) * MPState :=
  if sitl then
    match pack_8H override with
    | Ok buf => (Ok [SitlWrite buf], mp)
    | Raise e => (Raise e, mp)
    end
  else
    match master mp with
    | (Ok k, mp') =>
      (Ok [RcChannelsOverrideSend k (target_system target)
                                  (target_component target) override], mp')
    | (Raise e, mp') => (Raise e, mp')
    end.

(** [cmd_rc(args, rl)].  [args] holds the operator's words after the
    command name, each as [int()] reads it.  The result is the output,
    the override vector and the state; the vector is written before the
    packet is sent, so it is returned also when sending raises. *)
Definition cmd_rc (args : list Z) (sitl : bool) (target : Target)
    (override : list Z) (mp : MPState)
  : result (list rc_event) * list Z * MPState :=
  match args with
  | [channel; value] =>
    let value := if value =? -1 then 65535 else value in
    if (channel <? 1) || (channel >? 8) then
      (Ok [RcPrint "Channel must be between 1 and 8" []], override, mp)
    else
      match py_setitem override (channel - 1) value with
      | Raise e => (Raise e, override, mp)
      | Ok override =>
        let '(r, mp) := send_rc_override sitl target override mp in
        (r, override, mp)
      end
  | _ => (Ok [RcPrint "Usage: rc <channel> <pwmvalue>" []], override, mp)
  end.

(** [int(x)] for a float: the fraction is dropped, towards zero. *)
Definition py_int (x : Q) : Z := Z.quot (Qnum x) (Z.pos (Qden x)).

(** [cmd_switch(args, rl)], with [quadcopter] for [opts.quadcopter]. *)
Definition cmd_switch (args : list Z) (quadcopter sitl : bool)
    (target : Target) (override : list Z) (mp : MPState)
  : result (list rc_event) * list Z * MPState :=
  let mapping := [0; 1165; 1295; 1425; 1555; 1685; 1815] in
  match args with
  | [value] =>
    if (value <? 0) || (value >? 6) then
      (Ok [RcPrint
             "Invalid switch value. Use 1-6 for flight modes, '0' to disable"
             []],
       override, mp)
    else
      let default_channel := if quadcopter then 5 else 8 in
      let flite_mode_ch_parm :=
        py_int (get_mav_param "FLTMODE_CH" (inject_Z default_channel) mp) in
      match py_getitem mapping value with
      | Raise e => (Raise e, override, mp)
      | Ok (_, pwm) =>
        match py_setitem override (flite_mode_ch_parm - 1) pwm with
        | Raise e => (Raise e, override, mp)
        | Ok override =>
          match send_rc_override sitl target override mp with
          | (Raise e, mp) => (Raise e, override, mp)
          | (Ok sent, mp) =>
            if value =? 0 then
              (Ok (sent ++ [RcPrint "Disabled RC switch override" []]),
               override, mp)
            else
              (Ok (sent ++
                   [RcPrint "Set RC switch override to %u (PWM=%u)"
                            [value; pwm]]),
               override, mp)
          end
        end
      end
  | _ => (Ok [RcPrint "Usage: switch <pwmvalue>" []], override, mp)
  end.

(** The override vector as [MPStatus.__init__] makes it. *)
Definition no_override : list Z := [0; 0; 0; 0; 0; 0; 0; 0].

(** ** Distance read-out *)

(** The [NAV_CONTROLLER_OUTPUT] branch of [master_callback]: [wp_dist]
    is the unsigned integer field of the message, [flightmode] is
    [mpstate.status.flightmode], [distreadout] the setting, [last] the
    value of [mpstate.status.last_distance_announce].  The division is
    Python 2's integer division, which rounds down.  The result is the
    new value of [last_distance_announce] and what is said. *)
Definition on_nav_controller_output (wp_dist : Z) (flightmode : string)
    (distreadout : Z) (last : Z) : Z * list event :=
  if String.eqb flightmode "AUTO" && negb (distreadout =? 0) then
    let rounded_dist := wp_dist / distreadout * distreadout in
    if Z.abs (rounded_dist - last) >=? distreadout then
      (rounded_dist,
       if negb (rounded_dist =? 0) then [Say "%u" [PInt rounded_dist]]
       else [])
    else (last, [])
  else (last, []).

(** ** Battery report *)

(** [battery_report()]: [battreadout] is the setting, the flight battery
    level is read from the status, [last] is
    [mpstate.status.last_battery_announce].  The function returns before
    the avionics part.  The result is the new value of
    [last_battery_announce] and what is said. *)
Definition battery_report (battreadout : Z) (last : Z) (mp : MPState)
  : Z * list event :=
  if battreadout =? 0 then (last, [])
  else
    let rbattery_level :=
      py_int ((Status.battery_level (status mp) + 5) / 10)%Q * 10 in
    let '(last, out) :=
      if negb (rbattery_level =? last) then
        (rbattery_level,
         [Say "Flight battery %u percent" [PInt rbattery_level]])
      else (last, []) in
    if rbattery_level <=? 20 then
      (last, out ++ [Say "Flight battery warning" []])
    else (last, out).

(** The state before any [SYS_STATUS]: the flight battery level is
    still -1. *)
Definition initial_state_for_report : MPState := sample_state [] 0.

(** ** Servo mirror *)


(** * Properties *)

(** ** Float comparisons *)

Lemma Qgtb_true x y : Qgtb x y = true <-> (y < x)%Q.
Proof.
  unfold Qgtb. rewrite negb_true_iff, <- not_true_iff_false, Qle_bool_iff.
  split; [apply Qnot_le_lt | apply Qlt_not_le].
Qed.

Lemma Qgtb_false x y : Qgtb x y = false <-> (x <= y)%Q.
Proof. unfold Qgtb. rewrite negb_false_iff. apply Qle_bool_iff. Qed.

Lemma Qltb_true x y : Qltb x y = true <-> (x < y)%Q.
Proof. apply Qgtb_true. Qed.

Lemma Qltb_false x y : Qltb x y = false <-> (y <= x)%Q.
Proof. apply Qgtb_false. Qed.

(** ** Properties of the battery curve *)

Lemma vcell_above_full vcell :
  (4.1 < vcell)%Q -> vcell_to_battery_percent vcell = 100.0%Q.
Proof.
  intros H. apply Qgtb_true in H. unfold vcell_to_battery_percent.
  now rewrite H.
Qed.

Lemma vcell_upper_segment vcell :
  (3.81 < vcell)%Q -> (vcell <= 4.1)%Q ->
  vcell_to_battery_percent vcell
  = (17.0 + 83.0 * (vcell - 3.81) / (4.1 - 3.81))%Q.
Proof.
  intros Hlo Hhi. apply Qgtb_true in Hlo. apply Qgtb_false in Hhi.
  unfold vcell_to_battery_percent. now rewrite Hhi, Hlo.
Qed.

(** At and below 3.81 volts the source returns 0: the branch that holds
    the lower segment is never taken. *)
Lemma vcell_lower_is_zero vcell :
  (vcell <= 3.81)%Q -> vcell_to_battery_percent vcell = 0.0%Q.
Proof.
  intros H. assert (H41 : (vcell <= 4.1)%Q).
  { eapply Qle_trans; [exact H | discriminate]. }
  apply Qgtb_false in H. apply Qgtb_false in H41.
  unfold vcell_to_battery_percent. now rewrite H41, H.
Qed.

(** On the whole segment from 3.20 to 3.81 volts the claimed curve is
    positive, so the two differ there. *)
Lemma battery_curve_spec_lower_segment vcell :
  (3.20 < vcell)%Q -> (vcell <= 3.81)%Q ->
  battery_curve_spec vcell = (17 * (vcell - 3.20) / (3.81 - 3.20))%Q /\
  (0 < battery_curve_spec vcell)%Q.
Proof.
  intros Hlo Hhi.
  assert (H41 : (vcell <= 4.1)%Q) by lra.
  assert (Hcurve : battery_curve_spec vcell
                   = (17 * (vcell - 3.20) / (3.81 - 3.20))%Q).
  { apply Qgtb_true in Hlo. apply Qgtb_false in Hhi, H41.
    unfold battery_curve_spec. now rewrite H41, Hhi, Hlo. }
  split; [exact Hcurve |]. rewrite Hcurve.
  apply Qlt_shift_div_l; lra.
Qed.

(** C1. At a cell voltage of 3.5 V, inside the segment 3.20 < vcell <= 3.81
    where the claimed curve gives 17*(vcell-3.20)/(3.81-3.20) = 510/61
    percent, [vcell_to_battery_percent] returns 0. *)
Theorem vcell_to_battery_percent_lower_segment_dead :
  vcell_to_battery_percent 3.5 = 0.0%Q /\
  (battery_curve_spec 3.5 == 510 # 61)%Q /\
  ~ (vcell_to_battery_percent 3.5 == battery_curve_spec 3.5)%Q.
Proof.
  split; [reflexivity | split]; [vm_compute; reflexivity |].
  vm_compute. discriminate.
Qed.

(** ** Sums of an integer and a float constant *)

(** An integer below 2^53 in magnitude is a float. *)
Lemma py_float_exact (n : Z) : Z.abs n < 2 ^ 53 -> py_float n = n.
Proof.
  intros Hn. unfold py_float.
  assert (Hk : Z.log2 (Z.abs n) - 52 <= 0).
  { destruct (Z.eq_dec (Z.abs n) 0) as [-> | Hne]; [cbn; lia |].
    assert (Z.log2 (Z.abs n) < 53); [| lia].
    apply Z.log2_lt_pow2; lia. }
  apply Z.leb_le in Hk. cbv zeta. now rewrite Hk.
Qed.

(** Below 2^53 the float sum is the sum of the integers. *)
Lemma py_add_float_exact (n c : Z) :
  0 <= n -> 0 <= c -> n + c < 2 ^ 53 -> py_add_float n c = n + c.
Proof.
  intros Hn Hc Hsum. unfold py_add_float.
  rewrite (py_float_exact n) by lia. apply py_float_exact. lia.
Qed.

(** Above 2^53 the float sum rounds: to the even neighbour on a tie,
    here down for [2^53 + 1] and up for [2^53 + 3]. *)
Example py_add_float_rounds :
  py_add_float (2 ^ 53 + 1) 60000000 = 2 ^ 53 + 60000000 /\
  py_add_float (2 ^ 53 + 3) 60000000 = 2 ^ 53 + 60000004 /\
  py_add_float (2 ^ 53 + 3) 500000 = 2 ^ 53 + 500004.
Proof. repeat split; vm_compute; reflexivity. Qed.

(** ** Link delay and wrap detection *)

Section HandleUsec.
Variables (usec : Z) (master : nat) (mp : MPState) (m : Link.t).
Hypothesis Hmaster : mav_master mp !! master = Some m.

(** The wrap branch, as an equation. *)
Lemma handle_usec_wrap_eq :
  py_add_float usec 60000000 < Link.highest_usec m ->
  handle_usec_timestamp usec master mp
  = Some (set_mav_master
            ((fun mm => Link.set_highest_usec usec
                          (Link.set_link_delayed false mm))
             <$> mav_master mp)
            (set_status (Status.set_highest_usec usec (status mp)) mp),
          [Say "Time has wrapped" [];
           Print "usec %u highest_usec %u"
                 [PInt usec; PInt (Link.highest_usec m)]]).
Proof.
  intros Hwrap. unfold handle_usec_timestamp. rewrite Hmaster.
  apply Z.ltb_lt in Hwrap. now rewrite Hwrap.
Qed.

(** Without a wrap the call returns, the link holds [usec] as its
    highest time stamp and only its delay flag may differ besides; the
    set-wide highest time stamp is the maximum of its old value and
    [usec]. *)
Lemma handle_usec_no_wrap_shape :
  Link.highest_usec m <= py_add_float usec 60000000 ->
  exists (delayed : bool) (out : list event),
    handle_usec_timestamp usec master mp
    = Some (set_mav_master
              (<[master := Link.set_link_delayed delayed
                             (Link.set_highest_usec usec m)]>
                 (mav_master mp))
              (set_status
                 (Status.set_highest_usec
                    (Z.max (Status.highest_usec (status mp)) usec)
                    (status mp)) mp),
            out).
Proof.
  intros Hno. unfold handle_usec_timestamp. rewrite Hmaster.
  apply Z.ltb_ge in Hno. rewrite Hno.
  assert (Hst : (if usec >? Status.highest_usec (status mp)
                 then Status.set_highest_usec usec (status mp)
                 else status mp)
                = Status.set_highest_usec
                    (Z.max (Status.highest_usec (status mp)) usec)
                    (status mp)).
  { destruct (Z.gtb_spec usec (Status.highest_usec (status mp))).
    - now rewrite Z.max_r by lia.
    - rewrite Z.max_l by lia. now destruct (status mp). }
  rewrite Hst.
  destruct ((py_add_float usec 1000000 <? _) && _);
    [eexists true, _; reflexivity |].
  destruct ((py_add_float usec 500000 >? _) && _);
    [eexists false, _; reflexivity |].
  exists (Link.link_delayed m), []. reflexivity.
Qed.
End HandleUsec.

(** Rounding decides the branch above 2^53: the link has seen
    [2^53 + 60000001] and receives [2^53 + 1].  On the integers the sum
    reaches the link's highest time stamp; the float sum is one less,
    and the wrap is announced. *)
Example handle_usec_timestamp_rounding :
  ~ (2 ^ 53 + 1 + 60000000 < 2 ^ 53 + 60000001) /\
  snd <$> handle_usec_timestamp
            (2 ^ 53 + 1) 0
            (sample_state [sample_link 0 false (2 ^ 53 + 60000001)]
                          (2 ^ 53 + 60000001))
  = Some [Say "Time has wrapped" [];
          Print "usec %u highest_usec %u"
                [PInt (2 ^ 53 + 1); PInt (2 ^ 53 + 60000001)]].
Proof. split; [lia | vm_compute; reflexivity]. Qed.

(** C3. When [usec + 6.0e7], the float sum the program computes, is below
    the highest time stamp of the link the message came from,
    [handle_usec_timestamp] announces the wrap, sets the set-wide
    [highest_usec] to [usec] and, for every link of the set, sets its
    [highest_usec] to [usec] and clears its [link_delayed]; nothing else
    changes: the other fields of the links and of the status, the
    settings, the parameters and the log queue are as before.  For
    [0 <= usec < 2^53 - 6*10^7] the float sum is the integer
    [usec + 60000000] ([py_add_float_exact]). *)
Theorem handle_usec_timestamp_wrap
    (usec : Z) (master : nat) (mp : MPState) (m : Link.t) :
  mav_master mp !! master = Some m ->
  py_add_float usec 60000000 < Link.highest_usec m ->
  exists mp' : MPState,
    handle_usec_timestamp usec master mp
    = Some (mp', [Say "Time has wrapped" [];
                  Print "usec %u highest_usec %u"
                        [PInt usec; PInt (Link.highest_usec m)]]) /\
    Status.highest_usec (status mp') = usec /\
    status mp' = Status.set_highest_usec usec (status mp) /\
    length (mav_master mp') = length (mav_master mp) /\
    (forall (i : nat) (mm : Link.t),
        mav_master mp !! i = Some mm ->
        mav_master mp' !! i
        = Some (Link.mk (Link.linknum mm) (Link.linkerror mm) false
                        (Link.last_heartbeat mm) usec)) /\
    settings mp' = settings mp /\
    mav_param mp' = mav_param mp /\
    logqueue mp' = logqueue mp.
Proof.
  intros Hmaster Hwrap. eexists. split.
  - apply (handle_usec_wrap_eq usec master mp m Hmaster Hwrap).
  - cbn. repeat split.
    + apply length_fmap.
    + intros i mm Hi. rewrite list_lookup_fmap, Hi. reflexivity.
Qed.

Lemma handle_usec_timestamp_wrap_witness :
  wrap_state.(mav_master) !! 0%nat = Some (sample_link 0 true 500000000) /\
  py_add_float 100000000 60000000 < 500000000 /\
  exists mp' : MPState,
    handle_usec_timestamp 100000000 0 wrap_state
    = Some (mp', [Say "Time has wrapped" [];
                  Print "usec %u highest_usec %u"
                        [PInt 100000000; PInt 500000000]]) /\
    Status.highest_usec (status mp') = 100000000 /\
    mav_master mp'
    = [sample_link 0 false 100000000; sample_link 1 false 100000000].
Proof.
  split; [reflexivity | split; [reflexivity |]].
  destruct (handle_usec_timestamp_wrap 100000000 0 wrap_state
              (sample_link 0 true 500000000) eq_refl eq_refl)
    as (mp' & Hrun & Hhi & _).
  exists mp'. split; [exact Hrun | split; [exact Hhi |]].
  injection Hrun as <-. reflexivity.
Defined.

(** C2, as stated, fails: a message one microsecond older than the link's
    highest time stamp is no wrap, and the link's [highest_usec] goes down
    from 10000000 to 9999999.  The state is the one a single link reaches
    by a message stamped 10000000. *)
Lemma highest_usec_decreases_without_wrap :
  handle_usec_timestamp 10000000 0 (sample_state [sample_link 0 false 0] 0)
  = Some (steady_state, []) /\
  ~ (py_add_float 9999999 60000000 < 10000000) /\
  steady_state.(mav_master) !! 0%nat = Some (sample_link 0 false 10000000) /\
  exists (mp' : MPState) (out : list event),
    handle_usec_timestamp 9999999 0 steady_state = Some (mp', out) /\
    mav_master mp' !! 0%nat = Some (sample_link 0 false 9999999) /\
    ~ (Link.highest_usec (sample_link 0 false 10000000)
       <= Link.highest_usec (sample_link 0 false 9999999)).
Proof.
  split; [reflexivity |].
  split; [intros H; vm_compute in H; discriminate H | split; [reflexivity |]].
  eexists _, _. split; [reflexivity | split; [reflexivity |]].
  cbn. lia.
Qed.

(** C2, amended. On a message that is no wrap, the link's [highest_usec]
    becomes [usec]: it can be below its previous value, but that value
    is not above [usec + 6.0e7] as the program adds it, so for
    [0 <= usec < 2^53 - 6*10^7], where that sum is exact, the new value
    is at most 60000000 below the previous one; and it is not below it
    when [usec] is not.  The set-wide [highest_usec] is the maximum of
    its previous value and [usec], so it never decreases. *)
Theorem handle_usec_timestamp_no_wrap
    (usec : Z) (master : nat) (mp : MPState) (m : Link.t) :
  mav_master mp !! master = Some m ->
  ~ (py_add_float usec 60000000 < Link.highest_usec m) ->
  exists (mp' : MPState) (out : list event) (m' : Link.t),
    handle_usec_timestamp usec master mp = Some (mp', out) /\
    mav_master mp' !! master = Some m' /\
    Link.highest_usec m' = usec /\
    Link.highest_usec m <= py_add_float (Link.highest_usec m') 60000000 /\
    (0 <= usec < 2 ^ 53 - 60000000 ->
     Link.highest_usec m - 60000000 <= Link.highest_usec m') /\
    (Link.highest_usec m <= usec ->
     Link.highest_usec m <= Link.highest_usec m') /\
    Status.highest_usec (status mp')
    = Z.max (Status.highest_usec (status mp)) usec /\
    Status.highest_usec (status mp) <= Status.highest_usec (status mp').
Proof.
  intros Hmaster Hno.
  destruct (handle_usec_no_wrap_shape usec master mp m Hmaster)
    as (delayed & out & Hrun); [lia |].
  eexists _, out, _. split; [exact Hrun |]. cbn. split.
  - apply list_lookup_insert_eq. eapply lookup_lt_Some, Hmaster.
  - cbn. split; [reflexivity |]. split; [lia |]. split.
    + intros Hbound.
      rewrite (py_add_float_exact usec 60000000) in Hno by lia. lia.
    + repeat split; lia.
Qed.

Lemma handle_usec_timestamp_no_wrap_witness :
  steady_state.(mav_master) !! 0%nat = Some (sample_link 0 false 10000000) /\
  ~ (py_add_float 9999999 60000000 < 10000000) /\
  exists (mp' : MPState) (m' : Link.t),
    mav_master mp' !! 0%nat = Some m' /\
    Link.highest_usec m' = 9999999 /\
    Status.highest_usec (status mp') = 10000000.
Proof.
  split; [reflexivity |].
  split; [intros H; vm_compute in H; discriminate H |].
  destruct (handle_usec_timestamp_no_wrap 9999999 0 steady_state
              (sample_link 0 false 10000000) eq_refl)
    as (mp' & out & m' & _ & Hlink & Hhi & _ & _ & _ & Hset & _);
    [intros H; vm_compute in H; discriminate H |].
  exists mp', m'. split; [exact Hlink | split; [exact Hhi | exact Hset]].
Defined.

(** C6, as stated, fails at the boundary.  From two links as they are
    opened, a message stamped 2000000 on the second link and one stamped
    900000 on the first leave the first link delayed.  It then receives
    [usec = 1500000] while the set-wide highest time stamp is 2000000:
    [usec + 5e5] equals it, and the link stays delayed. *)
Lemma delayed_link_stays_delayed_at_boundary :
  handle_usec_timestamps [(2000000, 1%nat); (900000, 0%nat)] fresh_state
  = Some lagging_state /\
  lagging_state.(mav_master) !! 0%nat = Some (sample_link 0 true 900000) /\
  ~ (py_add_float 1500000 60000000 < 900000) /\
  exists (mp' : MPState) (out : list event),
    handle_usec_timestamp 1500000 0 lagging_state = Some (mp', out) /\
    1500000 + 500000 = Status.highest_usec (status mp') /\
    py_add_float 1500000 500000 = Status.highest_usec (status mp') /\
    (Link.link_delayed <$> mav_master mp' !! 0%nat) = Some true /\
    out = [].
Proof.
  split; [reflexivity | split; [reflexivity |]].
  split; [intros H; vm_compute in H; discriminate H |].
  eexists _, _. split; [reflexivity |]. repeat split.
Qed.

(** C6, amended. For a delayed link and a message that is no wrap,
    [handle_usec_timestamp] clears [link_delayed], announcing the link as
    OK, when [usec + 0.5e6], the float sum the program computes, is
    strictly above the set-wide [highest_usec] after the max-update; when
    the sum equals it or is below it, the link stays delayed and nothing
    is announced.  For [0 <= usec < 2^53 - 6*10^7] the float sums are
    the integers [usec + 500000] and [usec + 60000000]
    ([py_add_float_exact]). *)
Theorem delayed_link_recovery
    (usec : Z) (master : nat) (mp : MPState) (m : Link.t) :
  mav_master mp !! master = Some m ->
  Link.link_delayed m = true ->
  ~ (py_add_float usec 60000000 < Link.highest_usec m) ->
  exists (mp' : MPState) (out : list event) (m' : Link.t),
    handle_usec_timestamp usec master mp = Some (mp', out) /\
    mav_master mp' !! master = Some m' /\
    Status.highest_usec (status mp')
    = Z.max (Status.highest_usec (status mp)) usec /\
    (Status.highest_usec (status mp') < py_add_float usec 500000 ->
     Link.link_delayed m' = false /\
     out = [Say "link %u OK" [PInt (Link.linknum m + 1)]]) /\
    (py_add_float usec 500000 <= Status.highest_usec (status mp') ->
     Link.link_delayed m' = true /\ out = []).
Proof.
  intros Hmaster Hdelayed Hno.
  assert (Hlen : (master < length (mav_master mp))%nat)
    by (eapply lookup_lt_Some, Hmaster).
  unfold handle_usec_timestamp. rewrite Hmaster.
  apply Z.nlt_ge, Z.ltb_ge in Hno. rewrite Hno.
  set (st := if usec >? Status.highest_usec (status mp)
             then Status.set_highest_usec usec (status mp)
             else status mp).
  assert (Hst : Status.highest_usec st
                = Z.max (Status.highest_usec (status mp)) usec).
  { subst st. destruct (Z.gtb_spec usec (Status.highest_usec (status mp)));
      cbn; lia. }
  cbn [Link.link_delayed Link.set_highest_usec]. rewrite Hdelayed.
  rewrite andb_false_r, andb_true_r.
  destruct (Z.gtb_spec (py_add_float usec 500000) (Status.highest_usec st))
    as [Hgt|Hle].
  - eexists _, _, _. split; [reflexivity |]. cbn. split.
    + apply list_lookup_insert_eq, Hlen.
    + split; [exact Hst |]. split; [intros _; split; reflexivity | lia].
  - eexists _, _, _. split; [reflexivity |]. cbn. split.
    + apply list_lookup_insert_eq, Hlen.
    + split; [exact Hst |].
      split; [lia | intros _; split; [exact Hdelayed | reflexivity]].
Qed.

Lemma delayed_link_recovery_witness :
  lagging_state.(mav_master) !! 0%nat = Some (sample_link 0 true 900000) /\
  Link.link_delayed (sample_link 0 true 900000) = true /\
  ~ (py_add_float 1500001 60000000 < 900000) /\
  exists (mp' : MPState) (m' : Link.t),
    handle_usec_timestamp 1500001 0 lagging_state
    = Some (mp', [Say "link %u OK" [PInt 1]]) /\
    mav_master mp' !! 0%nat = Some m' /\
    Link.link_delayed m' = false.
Proof.
  split; [reflexivity | split; [reflexivity |]].
  split; [intros H; vm_compute in H; discriminate H |].
  destruct (delayed_link_recovery 1500001 0 lagging_state
              (sample_link 0 true 900000) eq_refl eq_refl)
    as (mp' & out & m' & Hrun & Hlink & Hset & Hclear & _);
    [intros H; vm_compute in H; discriminate H |].
  exists mp', m'.
  destruct Hclear as [Hflag Hout]; [rewrite Hset; reflexivity |].
  split; [rewrite Hrun, Hout; reflexivity | split; [exact Hlink | exact Hflag]].
Defined.

(** ** Heartbeat audit *)

(** Once the vehicle has been heard and has then been silent for more
    than five seconds, every run of the audit opens with the
    announcement, whatever [heartbeat_error] holds. *)
Lemma check_link_status_announces (tnow : Q) (mp : MPState) :
  ~ (Status.last_heartbeat (status mp) == 0)%Q ->
  (Status.last_heartbeat (status mp) + 5 < tnow)%Q ->
  exists out : list event,
    snd (check_link_status tnow mp) = Say "no heartbeat" [] :: out /\
    Status.heartbeat_error (status (fst (check_link_status tnow mp))) = true.
Proof.
  intros Hseen Hlate. unfold check_link_status.
  apply Qgtb_true in Hlate. rewrite Hlate.
  destruct (Qeq_bool _ 0) eqn:Hzero.
  - apply Qeq_bool_iff in Hzero. contradiction.
  - cbn [negb andb]. destruct (check_masters tnow (mav_master mp)) as [ls o].
    exists o. split; reflexivity.
Qed.

(** A link already marked as down is left alone and says nothing. *)
Lemma check_master_errored (tnow : Q) (master : Link.t) :
  Link.linkerror master = true -> check_master tnow master = (master, []).
Proof. intros H. unfold check_master. now rewrite H. Qed.

(** C5. The vehicle was last heard at second 1. The audit at second 7
    announces the loss of the heartbeat and of the link and sets both
    error flags; the audit at second 8, with [heartbeat_error] already
    true and no heartbeat in between, announces "no heartbeat" a second
    time, while the link, guarded by its own flag, is not announced
    again. *)
Theorem check_link_status_repeats_no_heartbeat :
  let first := check_link_status 7 silent_state in
  let second := check_link_status 8 (fst first) in
  snd first = [Say "no heartbeat" []; Say "link %u down" [PInt 1]] /\
  Status.heartbeat_error (status (fst first)) = true /\
  snd second = [Say "no heartbeat" []] /\
  fst second = fst first.
Proof. cbv zeta. repeat split. Qed.

(** ** Waypoint upload *)



(** Within the ten seconds the same request is served: the frame goes out
    and, being the last one, ends the upload. *)
Example process_waypoint_request_in_time :
  process_waypoint_request 1 0 10 10 uploading_state
  = (set_status
       (Status.set_loading_waypoints false
          (Status.set_loading_waypoint_lasttime 10 (status uploading_state)))
       uploading_state,
     [MavSend 0 ["002"%byte];
      Print "Sent waypoint %u : %s" [PInt 1; PWaypoint ["002"%byte]];
      Print "Sent all %u waypoints" [PInt 2]]).
Proof. reflexivity. Qed.

(** ** Battery *)

(** With [AP_ADC] telemetry present and [numcells] zero the division
    raises. *)
Lemma battery_update_zero_cells (battery_remaining adc2 : Z) (mp : MPState) :
  Status.AP_ADC (status mp) = Some adc2 ->
  numcells (settings mp) = 0 ->
  fst (battery_update battery_remaining mp) = Raise ZeroDivisionError.
Proof.
  intros Hadc Hcells. unfold battery_update. cbn. rewrite Hadc, Hcells.
  reflexivity.
Qed.

(** Without [AP_ADC] telemetry only the flight battery level is
    written. *)
Lemma battery_update_no_adc (battery_remaining : Z) (mp : MPState) :
  Status.AP_ADC (status mp) = None ->
  battery_update battery_remaining mp
  = (Ok tt,
     set_status
       (Status.set_battery_level (inject_Z battery_remaining / 10.0)%Q
                                 (status mp)) mp).
Proof. intros Hadc. unfold battery_update. cbn. now rewrite Hadc. Qed.

(** C9. With [AP_ADC] telemetry present ([adc2 = 700]) and [numcells] at
    its default 0, [battery_update] reaches the division and raises
    [ZeroDivisionError], where the claim has the computation skipped and
    no error raised. *)
Theorem battery_update_divides_by_zero_cells :
  numcells (settings (adc_state 0)) = 0 /\
  Status.AP_ADC (status (adc_state 0)) = Some 700 /\
  fst (battery_update 500 (adc_state 0)) = Raise ZeroDivisionError.
Proof. repeat split. Qed.

(** Three cells and [adc2 = 700]: 3.796... volts per cell, which the curve
    maps to 0; the first sample is adopted as it is. *)
Example battery_update_three_cells :
  fst (battery_update 500 (adc_state 3)) = Ok tt /\
  (Status.avionics_battery_level
     (status (snd (battery_update 500 (adc_state 3)))) == 0)%Q /\
  (Status.battery_level
     (status (snd (battery_update 500 (adc_state 3)))) == 50)%Q.
Proof. repeat split. Qed.

(** ** Parsed log *)

Lemma Z_of_byte_of_Z (z : Z) : Z_of_byte (byte_of_Z z) = z mod 256.
Proof.
  unfold Z_of_byte, byte_of_Z.
  assert (Hrange : 0 <= z mod 256 < 256) by (apply Z.mod_pos_bound; lia).
  destruct (Byte.of_N (Z.to_N (z mod 256))) as [b|] eqn:Hb.
  - apply Byte.to_of_N in Hb. rewrite Hb. apply Z2N.id. lia.
  - apply Byte.of_N_None_iff in Hb. lia.
Qed.

Lemma length_be_bytes (n : nat) (v : Z) : length (be_bytes n v) = n.
Proof.
  revert v. induction n as [|n IH]; intros v; [reflexivity |].
  cbn [be_bytes]. rewrite length_app, IH. cbn. lia.
Qed.

Lemma be_value_snoc (bs : list byte) (b : byte) :
  be_value (bs ++ [b]) = be_value bs * 256 + Z_of_byte b.
Proof. unfold be_value. now rewrite fold_left_app. Qed.

(** Reading [n] big-endian bytes of [v] back gives [v] modulo [256^n]. *)
Lemma be_value_be_bytes (n : nat) (v : Z) :
  be_value (be_bytes n v) = v mod 256 ^ Z.of_nat n.
Proof.
  revert v. induction n as [|n IH]; intros v.
  - cbn. now rewrite Z.mod_1_r.
  - cbn [be_bytes]. rewrite be_value_snoc, IH, Z_of_byte_of_Z.
    rewrite Nat2Z.inj_succ, Z.pow_succ_r by lia.
    rewrite (Z.rem_mul_r v 256 (256 ^ Z.of_nat n)) by lia. lia.
Qed.

(** Round trip: a record made of the packed stamp and a frame parses
    back into that stamp and that frame. *)
Lemma parse_record_pack (v : Z) (header frame : list byte) :
  pack_Q v = Ok header -> parse_record (header ++ frame) = (v, frame).
Proof.
  unfold pack_Q. destruct (_ && _) eqn:Hrange; [| discriminate].
  intros Hpack. assert (header = be_bytes 8 v) as -> by congruence.
  clear Hpack. apply andb_true_iff in Hrange as [Hlo Hhi].
  apply Z.leb_le in Hlo. apply Z.ltb_lt in Hhi.
  unfold parse_record.
  rewrite take_app_length', drop_app_length'
    by (symmetry; apply length_be_bytes).
  rewrite be_value_be_bytes. f_equal. apply Z.mod_small.
  change (256 ^ Z.of_nat 8) with (2 ^ 64). lia.
Qed.

(** The two low bits of the stamp are the link number modulo 4. *)
Lemma log_stamp_low_bits (usec : Z) (master : Link.t) :
  Z.land (log_stamp usec master) 3 = Link.linknum master mod 4.
Proof.
  unfold log_stamp. rewrite Z.land_lor_distr_l, <- Z.land_assoc.
  change (Z.land (Z.lnot 3) 3) with 0. rewrite Z.land_0_r, Z.lor_0_l.
  apply (Z.land_ones _ 2). lia.
Qed.

(** For the link numbers 0 to 3 the stamp is the time with its two low
    bits replaced by [linknum & 3]. *)
Lemma log_stamp_four_links (usec : Z) (master : Link.t) :
  0 <= Link.linknum master < 4 ->
  log_stamp usec master = log_stamp_spec usec (Link.linknum master).
Proof.
  intros Hn. unfold log_stamp, log_stamp_spec. f_equal.
  rewrite (Z.land_ones _ 2) by lia. symmetry. apply Z.mod_small. exact Hn.
Qed.

(** What is queued for a frame that is not bad data, when the stamp is an
    unsigned 64-bit number: the eight bytes of the stamp, then the frame
    as it is. *)
Lemma journal_record
    (mtype : string) (msgbuf : list byte) (master : Link.t)
    (now_usec : Z) (mp : MPState) (queue : list (list byte)) :
  mtype <> "BAD_DATA" ->
  logqueue mp = Some queue ->
  0 <= log_stamp now_usec master < 2 ^ 64 ->
  journal mtype msgbuf master now_usec mp
  = (Ok tt,
     set_logqueue
       (Some (queue ++ [be_bytes 8 (log_stamp now_usec master) ++ msgbuf]))
       mp) /\
  parse_record (be_bytes 8 (log_stamp now_usec master) ++ msgbuf)
  = (log_stamp now_usec master, msgbuf).
Proof.
  intros Htype Hqueue Hrange.
  assert (Hpack : pack_Q (log_stamp now_usec master)
                  = Ok (be_bytes 8 (log_stamp now_usec master))).
  { unfold pack_Q.
    destruct (Z.leb_spec 0 (log_stamp now_usec master)); [| lia].
    destruct (Z.ltb_spec (log_stamp now_usec master) (2 ^ 64)); [| lia].
    reflexivity. }
  split; [| now apply parse_record_pack].
  unfold journal. apply String.eqb_neq in Htype. rewrite Htype.
  cbn [negb]. now rewrite Hqueue, Hpack.
Qed.

(** C4. A frame journalled from the fifth link ([linknum = 4]) at engine
    time 1000000: the stamp written is 1000004, with bit 2 of the time
    overwritten, where the claim has the time with its two low bits
    replaced by [4 & 3 = 0], that is 1000000.  The two low bits of the
    stamp are [4 mod 4] and the frame follows the eight header bytes
    unchanged. *)
Theorem journal_fifth_link_stamp :
  let run := journal "HEARTBEAT" sample_frame fifth_link 1000000
                     (sample_state [] 0) in
  fst run = Ok tt /\
  logqueue (snd run) = Some [be_bytes 8 1000004 ++ sample_frame] /\
  parse_record (be_bytes 8 1000004 ++ sample_frame)
  = (1000004, sample_frame) /\
  log_stamp_spec 1000000 (Link.linknum fifth_link) = 1000000 /\
  log_stamp 1000000 fifth_link = 1000004 /\
  Z.land (log_stamp 1000000 fifth_link) 3 = 0.
Proof. cbv zeta. repeat split. Qed.

(** ** Master selector *)

(** An index from [-len(l)] to [len(l) - 1] finds an element. *)
Lemma py_getitem_in_range {A : Type} (l : list A) (i : Z) :
  - Z.of_nat (length l) <= i < Z.of_nat (length l) ->
  exists x : A,
    let j := Z.to_nat (if i <? 0 then i + Z.of_nat (length l) else i) in
    py_getitem l i = Ok (j, x) /\ l !! j = Some x.
Proof.
  intros Hi. unfold py_getitem.
  set (j := if i <? 0 then i + Z.of_nat (length l) else i).
  assert (Hj : 0 <= j < Z.of_nat (length l)).
  { subst j. destruct (Z.ltb_spec i 0); lia. }
  destruct (Z.ltb_spec j 0); [lia |].
  destruct (l !! Z.to_nat j) as [x|] eqn:Hx.
  - exists x. split; reflexivity.
  - apply lookup_ge_None in Hx. lia.
Qed.

(** Any other index raises. *)
Lemma py_getitem_out_of_range {A : Type} (l : list A) (i : Z) :
  i < - Z.of_nat (length l) \/ Z.of_nat (length l) <= i ->
  py_getitem l i = Raise IndexError.
Proof.
  intros Hi. unfold py_getitem.
  destruct (Z.ltb_spec i 0).
  - destruct (Z.ltb_spec (i + Z.of_nat (length l)) 0); [reflexivity | lia].
  - destruct (Z.ltb_spec i 0); [lia |].
    destruct (l !! Z.to_nat i) eqn:Hx; [| reflexivity].
    apply lookup_lt_Some in Hx. lia.
Qed.

(** When [settings.link] needs no normalisation and the preferred link
    exists, the selector leaves the state alone and returns the preferred
    link unless it is down and some link is not. *)
Lemma master_no_normalisation (mp : MPState) (i : nat) (preferred : Link.t) :
  link (settings mp) <= Z.of_nat (length (mav_master mp)) ->
  py_getitem (mav_master mp) (link (settings mp) - 1) = Ok (i, preferred) ->
  master mp
  = (Ok (if Link.linkerror preferred
         then match list_find (fun m => Link.linkerror m = false)
                              (mav_master mp) with
              | Some (k, _) => k
              | None => i
              end
         else i),
     mp).
Proof.
  intros Hle Hget. unfold master.
  destruct (Z.gtb_spec (link (settings mp))
                       (Z.of_nat (length (mav_master mp)))); [lia |].
  rewrite Hget. destruct (Link.linkerror preferred); cbn [negb].
  - destruct (list_find _ _) as [[k x]|]; reflexivity.
  - reflexivity.
Qed.

(** The selector first rewrites [settings.link] when it is above the
    number of links, and then runs on the rewritten state. *)
Lemma master_normalises (mp : MPState) :
  mav_master mp <> [] ->
  master mp
  = master (if link (settings mp) >? Z.of_nat (length (mav_master mp))
            then set_settings (mkSettings 1 (numcells (settings mp))) mp
            else mp).
Proof.
  intros Hne.
  destruct (link (settings mp) >? Z.of_nat (length (mav_master mp))) eqn:Hgt;
    [| reflexivity].
  set (mp1 := set_settings (mkSettings 1 (numcells (settings mp))) mp).
  assert (Hin : (link (settings mp1) >? Z.of_nat (length (mav_master mp1)))
                = false).
  { cbn. destruct (mav_master mp) as [|m ms]; [contradiction |].
    destruct (Z.gtb_spec 1 (Z.of_nat (length (m :: ms))));
      [cbn [length] in *; lia | reflexivity]. }
  unfold master. rewrite Hgt, Hin. reflexivity.
Qed.

(** C7, as stated, fails: with one link and a preferred index of -1 the
    selector looks up position -2 and raises [IndexError]; no link is
    returned. *)
Lemma master_raises_on_negative_link :
  mav_master negative_link_state <> [] /\
  link (settings negative_link_state) = -1 /\
  master negative_link_state = (Raise IndexError, negative_link_state).
Proof. repeat split. discriminate. Qed.

(** C7, amended. For a link set with at least one link and a preferred
    index above minus the number of links: an index above the number of
    links is first rewritten to 1; the preferred link is the one at the
    preferred index minus one, counted from the end when that is
    negative; the selector returns it when its [linkerror] is false,
    otherwise the first link in order whose [linkerror] is false, and the
    preferred link when every link is down; a second call on the state
    the first one leaves returns the same link and the same state. *)
Theorem master_selection (mp : MPState) :
  mav_master mp <> [] ->
  - Z.of_nat (length (mav_master mp)) < link (settings mp) ->
  let n := Z.of_nat (length (mav_master mp)) in
  let p := if link (settings mp) >? n then 1 else link (settings mp) in
  let mp' := if link (settings mp) >? n
             then set_settings (mkSettings 1 (numcells (settings mp))) mp
             else mp in
  exists (i k : nat) (preferred chosen : Link.t),
    i = Z.to_nat (if p <? 1 then p - 1 + n else p - 1) /\
    mav_master mp !! i = Some preferred /\
    master mp = (Ok k, mp') /\
    link (settings mp') = p /\
    mav_master mp !! k = Some chosen /\
    (Link.linkerror preferred = false -> k = i) /\
    (Link.linkerror preferred = true ->
     Link.linkerror chosen = false /\
     (forall (j : nat) (m : Link.t),
         (j < k)%nat -> mav_master mp !! j = Some m ->
         Link.linkerror m = true)
     \/ k = i /\ Forall (fun m => Link.linkerror m = true) (mav_master mp)) /\
    master mp' = (Ok k, mp').
Proof.
  intros Hne Hlow n p mp'.
  assert (Hn : 1 <= n).
  { subst n. destruct (mav_master mp); [contradiction | cbn [length]; lia]. }
  assert (Hlinks : mav_master mp' = mav_master mp).
  { subst mp'. now destruct (link (settings mp) >? n). }
  assert (Hp : link (settings mp') = p).
  { subst mp' p. now destruct (link (settings mp) >? n). }
  assert (Hrange : - n < p <= n).
  { subst p. destruct (Z.gtb_spec (link (settings mp)) n); lia. }
  destruct (py_getitem_in_range (mav_master mp) (p - 1))
    as (preferred & Hget & Hlookup); [fold n; lia |].
  fold n in Hget, Hlookup.
  assert (Hidx : (if p - 1 <? 0 then p - 1 + n else p - 1)
                 = (if p <? 1 then p - 1 + n else p - 1)).
  { destruct (Z.ltb_spec (p - 1) 0), (Z.ltb_spec p 1); lia. }
  rewrite Hidx in Hget, Hlookup.
  set (i := Z.to_nat (if p <? 1 then p - 1 + n else p - 1)) in *.
  assert (Hrun : master mp'
                 = (Ok (if Link.linkerror preferred
                        then match list_find
                                     (fun m => Link.linkerror m = false)
                                     (mav_master mp) with
                             | Some (k, _) => k
                             | None => i
                             end
                        else i),
                    mp')).
  { rewrite <- Hlinks. apply master_no_normalisation.
    - rewrite Hlinks, Hp. fold n. lia.
    - rewrite Hlinks, Hp. exact Hget. }
  assert (Hfirst : master mp = master mp').
  { subst mp' n. now apply master_normalises. }
  rewrite Hfirst, Hrun.
  destruct (Link.linkerror preferred) eqn:Herr.
  - destruct (list_find _ (mav_master mp)) as [[k chosen]|] eqn:Hfind.
    + apply list_find_Some in Hfind as (Hk & Hok & Hbefore).
      exists i, k, preferred, chosen. rewrite Herr.
      split_and!; try done.
      intros _. left. split; [exact Hok |].
      intros j m Hj Hm. apply not_false_iff_true. eauto.
    + apply list_find_None in Hfind.
      exists i, i, preferred, preferred. rewrite Herr.
      split_and!; try done.
      intros _. right. split; [reflexivity |].
      eapply Forall_impl; [exact Hfind |].
      intros m Hm. now apply not_false_iff_true.
  - exists i, i, preferred, preferred. rewrite Herr.
    split_and!; done.
Qed.

Lemma master_selection_witness :
  mav_master failover_state <> [] /\
  - Z.of_nat (length (mav_master failover_state))
  < link (settings failover_state) /\
  master failover_state
  = (Ok 2%nat,
     set_settings (mkSettings 1 0) failover_state) /\
  master (set_settings (mkSettings 1 0) failover_state)
  = (Ok 2%nat, set_settings (mkSettings 1 0) failover_state).
Proof.
  split; [discriminate | split; [reflexivity |]].
  destruct (master_selection failover_state)
    as (i & k & preferred & chosen & _ & _ & Hrun & _ & _ & _ & _ & Hagain);
    [discriminate | reflexivity |].
  assert (Hk : k = 2%nat) by (cbv in Hrun; congruence).
  subst k. split; [exact Hrun | exact Hagain].
Defined.
(** ** PWM scaling *)

(** The two clamps of [scale_rc] put any value into a well-formed
    range. *)
Lemma clamp_in_range (v min max : Q) :
  (min <= max)%Q ->
  let v1 := if Qltb v min then min else v in
  let v2 := if Qgtb v1 max then max else v1 in
  (min <= v2 <= max)%Q.
Proof.
  intros Hrange v1 v2. subst v1 v2.
  destruct (Qltb v min) eqn:Hlow;
    [apply Qltb_true in Hlow | apply Qltb_false in Hlow].
  - destruct (Qgtb min max) eqn:Hhigh;
      [apply Qgtb_true in Hhigh | apply Qgtb_false in Hhigh]; lra.
  - destruct (Qgtb v max) eqn:Hhigh;
      [apply Qgtb_true in Hhigh | apply Qgtb_false in Hhigh]; lra.
Qed.

(** [scale_rc] never raises: the division is reached only with a
    divisor that is not zero. *)
Lemma scale_rc_total
    (servo : Z) (min max : Q) (param : string) (mp : MPState) :
  exists v : Q, scale_rc servo min max param mp = Ok v.
Proof.
  unfold scale_rc.
  set (min_pwm := get_mav_param (param +:+ "_MIN") 0 mp).
  set (max_pwm := get_mav_param (param +:+ "_MAX") 0 mp).
  destruct (Qeq_bool min_pwm 0 || Qeq_bool max_pwm 0); [eauto |].
  destruct (Qeq_bool max_pwm min_pwm) eqn:Heq; [eauto |].
  unfold py_div.
  destruct (Qeq_bool (max_pwm - min_pwm) 0) eqn:Hzero; [| eauto].
  apply Qeq_bool_iff in Hzero.
  assert (Hsame : (max_pwm == min_pwm)%Q) by lra.
  apply Qeq_bool_iff in Hsame. congruence.
Qed.

(** Over parameters that are numbers, [PyFloat.scale_rc] is
    [scale_rc]. *)
Lemma scale_rc_numbers
    (servo : Z) (min max : Q) (param : string) (mp : MPState) :
  PyFloat.scale_rc servo min max param (PyFloat.Finite <$> mav_param mp)
  = match scale_rc servo min max param mp with
    | Ok v => Ok (PyFloat.Finite v)
    | Raise e => Raise e
    end.
Proof.
  assert (Hget : forall key : string,
             PyFloat.get_mav_param key (PyFloat.Finite 0)
                                   (PyFloat.Finite <$> mav_param mp)
             = PyFloat.Finite (get_mav_param key 0 mp)).
  { intros key. unfold PyFloat.get_mav_param, get_mav_param.
    rewrite lookup_fmap. now destruct (mav_param mp !! key). }
  unfold PyFloat.scale_rc, scale_rc. rewrite !Hget.
  set (min_pwm := get_mav_param (param +:+ "_MIN") 0 mp).
  set (max_pwm := get_mav_param (param +:+ "_MAX") 0 mp).
  cbn [PyFloat.eqb PyFloat.sub PyFloat.div].
  destruct (Qeq_bool min_pwm 0 || Qeq_bool max_pwm 0); [reflexivity |].
  assert (Hclamp : forall v0 : Q,
             (let v := PyFloat.Finite v0 in
              let v := if PyFloat.ltb v (PyFloat.Finite min)
                       then PyFloat.Finite min else v in
              if PyFloat.gtb v (PyFloat.Finite max)
              then PyFloat.Finite max else v)
             = PyFloat.Finite
                 (let v := if Qltb v0 min then min else v0 in
                  if Qgtb v max then max else v)).
  { intros v0. cbn [PyFloat.ltb]. cbv zeta.
    destruct (Qltb v0 min); cbn [PyFloat.gtb PyFloat.ltb];
      [change (Qltb max min) with (Qgtb min max);
       now destruct (Qgtb min max)
      | change (Qltb max v0) with (Qgtb v0 max);
        now destruct (Qgtb v0 max)]. }
  destruct (Qeq_bool max_pwm min_pwm).
  - cbn [PyFloat.mul PyFloat.add]. cbv zeta in Hclamp |- *.
    now rewrite Hclamp.
  - unfold py_div. destruct (Qeq_bool (max_pwm - min_pwm) 0); [reflexivity |].
    cbn [PyFloat.mul PyFloat.add]. cbv zeta in Hclamp |- *.
    now rewrite Hclamp.
Qed.

(** [PyFloat.scale_rc] never raises, whatever the parameters hold: the
    divisor is a zero only when both limits are numbers and equal, and
    then no division is made. *)
Lemma scale_rc_float_total
    (servo : Z) (min max : Q) (param : string)
    (params : gmap string PyFloat.t) :
  exists r : PyFloat.t, PyFloat.scale_rc servo min max param params = Ok r.
Proof.
  unfold PyFloat.scale_rc.
  destruct (PyFloat.get_mav_param (param +:+ "_MIN") _ params)
    as [a | s |];
    destruct (PyFloat.get_mav_param (param +:+ "_MAX") _ params)
      as [b | s' |];
    cbn [PyFloat.eqb PyFloat.sub PyFloat.div orb];
    try (destruct (Qeq_bool a 0));
    try (destruct (Qeq_bool b 0));
    cbn [orb]; eauto.
  - destruct (Qeq_bool b a) eqn:Heq; [eauto |].
    destruct (Qeq_bool (b - a) 0) eqn:Hzero; [| eauto].
    apply Qeq_bool_iff in Hzero.
    assert (Hsame : (b == a)%Q) by lra.
    apply Qeq_bool_iff in Hsame. congruence.
  - destruct (Bool.eqb s' s); [eauto |].
    destruct (Bool.eqb s' s); eauto.
Qed.

(** C10, as stated, fails when a limit parameter is not a number: the
    vehicle has sent [RC1_MIN] as NaN and [RC1_MAX] as 2000, both are
    stored as they come, and [scale_rc(1500, -1.0, 1.0, 'RC1')] returns
    NaN, which is not in the range from -1.0 to 1.0. *)
Lemma scale_rc_nan_limit :
  PyFloat.get_mav_param "RC1_MIN" (PyFloat.Finite 0) nan_rc_params
  = PyFloat.NaN /\
  PyFloat.get_mav_param "RC1_MAX" (PyFloat.Finite 0) nan_rc_params
  = PyFloat.Finite 2000 /\
  (-1 <= 1)%Q /\
  PyFloat.scale_rc 1500 (-1) 1 "RC1" nan_rc_params = Ok PyFloat.NaN /\
  ~ PyFloat.in_range PyFloat.NaN (-1) 1.
Proof.
  split; [reflexivity | split; [reflexivity | split; [discriminate |]]].
  split; [reflexivity | intros H; exact H].
Qed.

(** C10, amended. [scale_rc] never raises, whatever the parameters
    hold.  When both limit parameters are numbers (missing counts as 0)
    and the output range has [min <= max]: the result is 0 when either
    limit is 0; otherwise it is a number between [min] and [max], and
    when the two limits are equal the scale factor is 0, no division is
    made and the result is [min]. *)
Theorem scale_rc_range
    (servo : Z) (min max : Q) (param : string)
    (params : gmap string PyFloat.t) :
  (exists r : PyFloat.t,
      PyFloat.scale_rc servo min max param params = Ok r) /\
  forall min_pwm max_pwm : Q,
    PyFloat.get_mav_param (param +:+ "_MIN") (PyFloat.Finite 0) params
    = PyFloat.Finite min_pwm ->
    PyFloat.get_mav_param (param +:+ "_MAX") (PyFloat.Finite 0) params
    = PyFloat.Finite max_pwm ->
    (min <= max)%Q ->
    exists v : Q,
      PyFloat.scale_rc servo min max param params
      = Ok (PyFloat.Finite v) /\
      ((min_pwm == 0)%Q \/ (max_pwm == 0)%Q -> v = 0%Q) /\
      (~ (min_pwm == 0)%Q -> ~ (max_pwm == 0)%Q ->
       (min <= v <= max)%Q /\ ((min_pwm == max_pwm)%Q -> (v == min)%Q)).
Proof.
  split; [apply scale_rc_float_total |].
  intros min_pwm max_pwm Hmin_pwm Hmax_pwm Hrange.
  unfold PyFloat.scale_rc. rewrite Hmin_pwm, Hmax_pwm.
  cbn [PyFloat.eqb PyFloat.sub PyFloat.div].
  destruct (Qeq_bool min_pwm 0) eqn:Hmin.
  { apply Qeq_bool_iff in Hmin. exists 0%Q. cbn [orb].
    split; [reflexivity |].
    split; [reflexivity | contradiction]. }
  destruct (Qeq_bool max_pwm 0) eqn:Hmax.
  { apply Qeq_bool_iff in Hmax. exists 0%Q. cbn [orb].
    split; [reflexivity |].
    split; [reflexivity | contradiction]. }
  cbn [orb].
  assert (Hmin' : ~ (min_pwm == 0)%Q)
    by (intros H; apply Qeq_bool_iff in H; congruence).
  assert (Hmax' : ~ (max_pwm == 0)%Q)
    by (intros H; apply Qeq_bool_iff in H; congruence).
  destruct (Qeq_bool max_pwm min_pwm) eqn:Heq.
  - cbn [PyFloat.mul PyFloat.add PyFloat.ltb PyFloat.gtb].
    set (v0 := (min + 0.0 * (max - min))%Q).
    assert (Hv0 : (v0 == min)%Q) by (subst v0; lra).
    pose proof (clamp_in_range v0 min max Hrange) as Hclamp.
    cbv zeta in Hclamp. unfold Qgtb in Hclamp. unfold Qltb at 2.
    destruct (Qltb v0 min) eqn:Hlow;
      [apply Qltb_true in Hlow; lra | apply Qltb_false in Hlow].
    cbn [PyFloat.ltb]. unfold Qltb.
    destruct (Qle_bool v0 max) eqn:Hhigh; cbn [negb] in *.
    + exists v0. split; [reflexivity |].
      split; [intros [H | H]; contradiction |]. intros _ _.
      split; [exact Hclamp | intros _; exact Hv0].
    + exists max. split; [reflexivity |].
      split; [intros [H | H]; contradiction |]. intros _ _.
      split; [exact Hclamp |]. intros _.
      assert (Hnot : ~ (v0 <= max)%Q)
        by (intros H; apply Qle_bool_iff in H; congruence).
      lra.
  - assert (Hne : ~ (max_pwm == min_pwm)%Q)
      by (intros H; apply Qeq_bool_iff in H; congruence).
    destruct (Qeq_bool (max_pwm - min_pwm) 0) eqn:Hzero.
    { apply Qeq_bool_iff in Hzero. exfalso. apply Hne. lra. }
    cbn [PyFloat.mul PyFloat.add PyFloat.ltb PyFloat.gtb].
    set (v0 := (min + (inject_Z servo - min_pwm) / (max_pwm - min_pwm)
                      * (max - min))%Q).
    pose proof (clamp_in_range v0 min max Hrange) as Hclamp.
    cbv zeta in Hclamp. unfold Qgtb in Hclamp.
    destruct (Qltb v0 min) eqn:Hlow; cbn [PyFloat.ltb]; unfold Qltb;
      match goal with
      | |- context [Qle_bool ?x max] =>
        destruct (Qle_bool x max) eqn:Hhigh
      end; cbn [negb] in *;
      (eexists; split; [reflexivity |];
       split; [intros [H | H]; contradiction |]; intros _ _;
       split; [exact Hclamp |];
       intros Hsame; exfalso; apply Hne; now symmetry).
Qed.

Lemma scale_rc_range_witness :
  PyFloat.get_mav_param "RC3_MIN" (PyFloat.Finite 0) throttle_rc_params
  = PyFloat.Finite 1000 /\
  PyFloat.get_mav_param "RC3_MAX" (PyFloat.Finite 0) throttle_rc_params
  = PyFloat.Finite 2000 /\
  (0 <= 1)%Q /\
  exists v : Q,
    PyFloat.scale_rc 1250 0 1 "RC3" throttle_rc_params
    = Ok (PyFloat.Finite v) /\
    (0 <= v <= 1)%Q.
Proof.
  split; [reflexivity | split; [reflexivity | split; [discriminate |]]].
  destruct (scale_rc_range 1250 0 1 "RC3" throttle_rc_params)
    as [_ Hnumbers].
  destruct (Hnumbers 1000%Q 2000%Q eq_refl eq_refl)
    as (v & Hrun & _ & Hin); [discriminate |].
  exists v. split; [exact Hrun |].
  apply Hin; discriminate.
Defined.

(** With limits 1000 and 2000 the throttle reads a quarter at 1250 and is
    clamped outside the limits; with equal limits it reads [min]. *)
Example scale_rc_throttle :
  (exists v : Q,
      scale_rc 1250 0 1 "RC3" throttle_rc_state = Ok v /\ (v == 1 # 4)%Q) /\
  scale_rc 900 0 1 "RC3" throttle_rc_state = Ok 0%Q /\
  scale_rc 2100 0 1 "RC3" throttle_rc_state = Ok 1%Q /\
  (exists v : Q,
      scale_rc 1500 (-1) 1 "RC1" flat_rc_state = Ok v /\ (v == -1)%Q).
Proof.
  split; [eexists; split; reflexivity |].
  split; [reflexivity | split; [reflexivity |]].
  eexists; split; reflexivity.
Qed.

(** * Further properties *)

(** ** Battery curve *)

(** The three shapes the result of the curve can take. *)
Lemma vcell_to_battery_percent_cases (vcell : Q) :
  (4.1 < vcell)%Q /\ vcell_to_battery_percent vcell = 100.0%Q
  \/ (3.81 < vcell)%Q /\ (vcell <= 4.1)%Q /\
     vcell_to_battery_percent vcell
     = (17.0 + 83.0 * (vcell - 3.81) / (4.1 - 3.81))%Q
  \/ (vcell <= 3.81)%Q /\ vcell_to_battery_percent vcell = 0.0%Q.
Proof.
  unfold vcell_to_battery_percent.
  destruct (Qgtb vcell 4.1) eqn:H41;
    [apply Qgtb_true in H41 | apply Qgtb_false in H41]; [now left |].
  destruct (Qgtb vcell 3.81) eqn:H381;
    [apply Qgtb_true in H381 | apply Qgtb_false in H381].
  - right; left. now repeat split.
  - right; right. now split.
Qed.

(** The upper segment written without the division. *)
Lemma upper_segment_value (vcell : Q) :
  (17.0 + 83.0 * (vcell - 3.81) / (4.1 - 3.81)
   == 17 + (8300 # 29) * (vcell - 3.81))%Q.
Proof. field. Qed.

Lemma battery_percent_range (vcell : Q) :
  (0 <= vcell_to_battery_percent vcell <= 100)%Q.
Proof.
  destruct (vcell_to_battery_percent_cases vcell)
    as [[_ ->] | [(Hlo & Hhi & ->) | [_ ->]]].
  - split; discriminate.
  - rewrite upper_segment_value. split; lra.
  - split; discriminate.
Qed.

(** The battery level computed from a cell voltage is a percentage: it
    lies between 0 and 100 for every voltage. *)
Theorem vcell_to_battery_percent_bounds (vcell : Q) :
  (0 <= vcell_to_battery_percent vcell <= 100)%Q.
Proof. exact (battery_percent_range vcell). Qed.

(** A higher cell voltage never gives a lower battery level. *)
Theorem vcell_to_battery_percent_monotone (v1 v2 : Q) :
  (v1 <= v2)%Q ->
  (vcell_to_battery_percent v1 <= vcell_to_battery_percent v2)%Q.
Proof.
  intros Hle.
  destruct (vcell_to_battery_percent_cases v1)
    as [[H1 ->] | [(H1 & H1' & ->) | [H1 ->]]];
  destruct (vcell_to_battery_percent_cases v2)
    as [[H2 ->] | [(H2 & H2' & ->) | [H2 ->]]];
  rewrite ?upper_segment_value; lra.
Qed.

Lemma vcell_to_battery_percent_monotone_witness :
  (3.9 <= 4.0)%Q /\
  (vcell_to_battery_percent 3.9 <= vcell_to_battery_percent 4.0)%Q.
Proof.
  split; [discriminate |].
  apply (vcell_to_battery_percent_monotone 3.9 4.0). discriminate.
Defined.

(** ** Battery update *)



(** ** Link delay: invariants *)

(** One call keeps every link behind the set-wide highest time stamp. *)
Lemma handle_usec_links_behind
    (usec : Z) (master : nat) (mp mp' : MPState) (out : list event) :
  links_behind mp ->
  handle_usec_timestamp usec master mp = Some (mp', out) ->
  links_behind mp'.
Proof.
  unfold links_behind. intros Hinv Hrun.
  destruct (mav_master mp !! master) as [m|] eqn:Hmaster;
    [| unfold handle_usec_timestamp in Hrun; rewrite Hmaster in Hrun;
       discriminate].
  destruct (Z.lt_ge_cases (py_add_float usec 60000000) (Link.highest_usec m))
    as [Hwrap | Hno].
  - rewrite (handle_usec_wrap_eq usec master mp m Hmaster Hwrap) in Hrun.
    injection Hrun as <- _. cbn. apply Forall_fmap, Forall_true.
    intros mm. cbn. lia.
  - destruct (handle_usec_no_wrap_shape usec master mp m Hmaster Hno)
      as (delayed & out' & Hshape).
    rewrite Hshape in Hrun. injection Hrun as <- _. cbn.
    apply Forall_insert; [| cbn; lia].
    eapply Forall_impl; [exact Hinv |]. cbn. intros mm Hmm. lia.
Qed.

Lemma handle_usec_timestamps_links_behind
    (msgs : list (Z * nat)) (mp mp' : MPState) :
  links_behind mp ->
  handle_usec_timestamps msgs mp = Some mp' ->
  links_behind mp'.
Proof.
  revert mp. induction msgs as [|[usec master] rest IH]; intros mp Hinv Hrun.
  - cbn in Hrun. now injection Hrun as <-.
  - cbn in Hrun.
    destruct (handle_usec_timestamp usec master mp) as [[mp1 out]|] eqn:Hstep;
      [| discriminate].
    eapply IH; [| exact Hrun].
    eapply handle_usec_links_behind; eassumption.
Qed.

(** Every delay in the report of a state whose links are behind is
    zero or more. *)
Lemma cmd_link_lines_nonnegative
    (MasterIn : list Z) (mp : MPState) (masters : list Link.t) :
  Forall (fun m => Link.highest_usec m <= Status.highest_usec (status mp))
         masters ->
  Forall (fun line => forall d : Q, line_delay line = Some d -> (0 <= d)%Q)
         (fst (cmd_link_lines MasterIn mp masters)).
Proof.
  induction 1 as [|m rest Hm Hrest IH]; [constructor |].
  cbn [cmd_link_lines].
  destruct (link_report MasterIn mp m) as [line|e] eqn:Hline;
    [| constructor].
  destruct (cmd_link_lines MasterIn mp rest) as [lines r]. cbn in *.
  constructor; [| exact IH].
  assert (Hdelay : (0 <= inject_Z (Status.highest_usec (status mp)
                                   - Link.highest_usec m) * 1e-6)%Q).
  { apply Qmult_le_0_compat; [| discriminate].
    change 0%Q with (inject_Z 0). rewrite <- Zle_Qle. lia. }
  unfold link_report in Hline. intros d Hd.
  destruct (Link.linkerror m); [injection Hline as <-; discriminate |].
  destruct (Link.link_delayed m).
  { injection Hline as <-. cbn in Hd. now injection Hd as <-. }
  destruct (py_getitem MasterIn (Link.linknum m)) as [[i packets]|];
    [| discriminate].
  injection Hline as <-. cbn in Hd. now injection Hd as <-.
Qed.

(** Starting from a state in which no link is ahead of the set-wide
    highest time stamp, as when the links are opened, any sequence of
    time-stamped messages leaves no link ahead of it. *)
Theorem handle_usec_timestamps_keep_links_behind
    (msgs : list (Z * nat)) (mp mp' : MPState) :
  links_behind mp ->
  handle_usec_timestamps msgs mp = Some mp' ->
  links_behind mp'.
Proof. apply handle_usec_timestamps_links_behind. Qed.

Lemma handle_usec_timestamps_keep_links_behind_witness :
  links_behind fresh_state /\
  exists mp' : MPState,
    handle_usec_timestamps
      [(10000000, 0%nat); (12000000, 1%nat); (10100000, 0%nat)] fresh_state
    = Some mp' /\
    links_behind mp'.
Proof.
  assert (Hfresh : links_behind fresh_state).
  { repeat constructor; cbn; discriminate. }
  split; [exact Hfresh |]. eexists. split; [reflexivity |].
  eapply (handle_usec_timestamps_keep_links_behind
            [(10000000, 0%nat); (12000000, 1%nat); (10100000, 0%nat)]
            fresh_state);
    [exact Hfresh | reflexivity].
Defined.

(** After any sequence of time-stamped messages from such a state, no
    line of [cmd_link] reports a negative delay. *)
Theorem cmd_link_delays_nonnegative
    (MasterIn : list Z) (msgs : list (Z * nat)) (mp mp' : MPState) :
  links_behind mp ->
  handle_usec_timestamps msgs mp = Some mp' ->
  Forall (fun line => forall d : Q, line_delay line = Some d -> (0 <= d)%Q)
         (fst (cmd_link MasterIn mp')).
Proof.
  intros Hinv Hrun. apply cmd_link_lines_nonnegative.
  exact (handle_usec_timestamps_links_behind msgs mp mp' Hinv Hrun).
Qed.

Lemma cmd_link_delays_nonnegative_witness :
  links_behind fresh_state /\
  Forall (fun line => forall d : Q, line_delay line = Some d -> (0 <= d)%Q)
         (fst (cmd_link [3; 1]
                 (sample_state [sample_link 0 true 10100000;
                                sample_link 1 false 12000000] 12000000))).
Proof.
  assert (Hfresh : links_behind fresh_state).
  { repeat constructor; cbn; discriminate. }
  split; [exact Hfresh |].
  apply (cmd_link_delays_nonnegative
           [3; 1] [(10000000, 0%nat); (12000000, 1%nat); (10100000, 0%nat)]
           fresh_state);
    [exact Hfresh | reflexivity].
Defined.

(** ** Link delay: onset and what is left alone *)

(** For a link that is not delayed and a message that is no wrap:
    the link becomes delayed, with the announcement, exactly when
    [usec + 1e6], the float sum the program computes, is strictly below
    the set-wide highest time stamp after the max-update; otherwise it
    stays as it is and nothing is said.  For
    [0 <= usec < 2^53 - 6*10^7] the float sums are the integers
    [usec + 1000000] and [usec + 60000000] ([py_add_float_exact]). *)
Theorem delayed_link_onset
    (usec : Z) (master : nat) (mp : MPState) (m : Link.t) :
  mav_master mp !! master = Some m ->
  Link.link_delayed m = false ->
  ~ (py_add_float usec 60000000 < Link.highest_usec m) ->
  exists (mp' : MPState) (out : list event) (m' : Link.t),
    handle_usec_timestamp usec master mp = Some (mp', out) /\
    mav_master mp' !! master = Some m' /\
    Status.highest_usec (status mp')
    = Z.max (Status.highest_usec (status mp)) usec /\
    (py_add_float usec 1000000 < Status.highest_usec (status mp') ->
     Link.link_delayed m' = true /\
     out = [Say "link %u delayed" [PInt (Link.linknum m + 1)]]) /\
    (Status.highest_usec (status mp') <= py_add_float usec 1000000 ->
     Link.link_delayed m' = false /\ out = []).
Proof.
  intros Hmaster Hdelayed Hno.
  assert (Hlen : (master < length (mav_master mp))%nat)
    by (eapply lookup_lt_Some, Hmaster).
  unfold handle_usec_timestamp. rewrite Hmaster.
  apply Z.nlt_ge, Z.ltb_ge in Hno. rewrite Hno.
  set (st := if usec >? Status.highest_usec (status mp)
             then Status.set_highest_usec usec (status mp)
             else status mp).
  assert (Hst : Status.highest_usec st
                = Z.max (Status.highest_usec (status mp)) usec).
  { subst st. destruct (Z.gtb_spec usec (Status.highest_usec (status mp)));
      cbn; lia. }
  cbn [Link.link_delayed Link.set_highest_usec]. rewrite Hdelayed.
  cbn [negb]. rewrite andb_true_r, andb_false_r.
  destruct (Z.ltb_spec (py_add_float usec 1000000) (Status.highest_usec st))
    as [Hlt | Hge].
  - eexists _, _, _. split; [reflexivity |]. cbn. split.
    + apply list_lookup_insert_eq, Hlen.
    + split; [exact Hst |]. split; [intros _; split; reflexivity | lia].
  - eexists _, _, _. split; [reflexivity |]. cbn. split.
    + apply list_lookup_insert_eq, Hlen.
    + split; [exact Hst |].
      split; [lia | intros _; split; [exact Hdelayed | reflexivity]].
Qed.

Lemma delayed_link_onset_witness :
  mav_master
    (sample_state [sample_link 0 false 10000000;
                   sample_link 1 false 12000000] 12000000)
  !! 0%nat = Some (sample_link 0 false 10000000) /\
  ~ (py_add_float 10100000 60000000 < 10000000) /\
  exists (mp' : MPState) (m' : Link.t),
    handle_usec_timestamp 10100000 0
      (sample_state [sample_link 0 false 10000000;
                     sample_link 1 false 12000000] 12000000)
    = Some (mp', [Say "link %u delayed" [PInt 1]]) /\
    mav_master mp' !! 0%nat = Some m' /\
    Link.link_delayed m' = true.
Proof.
  split; [reflexivity |].
  split; [intros H; vm_compute in H; discriminate H |].
  destruct (delayed_link_onset 10100000 0
              (sample_state [sample_link 0 false 10000000;
                             sample_link 1 false 12000000] 12000000)
              (sample_link 0 false 10000000) eq_refl eq_refl)
    as (mp' & out & m' & Hrun & Hlink & Hset & Honset & _);
    [intros H; vm_compute in H; discriminate H |].
  exists mp', m'.
  destruct Honset as [Hflag Hout]; [rewrite Hset; reflexivity |].
  split; [rewrite Hrun, Hout; reflexivity | split; [exact Hlink | exact Hflag]].
Defined.

(** Whatever the message, [handle_usec_timestamp] keeps the number of
    links and, link by link, the link number, the error flag and the time
    of the last heartbeat; it leaves the settings, the parameters and the
    log queue alone; and a message that is no wrap, that is one for
    which the float sum [usec + 6.0e7] of the program is not below the
    highest time stamp of its link, changes no link but the one it
    arrived on. *)
Theorem handle_usec_timestamp_frame
    (usec : Z) (master : nat) (mp mp' : MPState) (out : list event)
    (m0 : Link.t) :
  mav_master mp !! master = Some m0 ->
  handle_usec_timestamp usec master mp = Some (mp', out) ->
  length (mav_master mp') = length (mav_master mp) /\
  (forall (j : nat) (m : Link.t),
      mav_master mp !! j = Some m ->
      exists m' : Link.t,
        mav_master mp' !! j = Some m' /\
        Link.linknum m' = Link.linknum m /\
        Link.linkerror m' = Link.linkerror m /\
        Link.last_heartbeat m' = Link.last_heartbeat m /\
        (~ (py_add_float usec 60000000 < Link.highest_usec m0) ->
         j <> master -> m' = m)) /\
  settings mp' = settings mp /\
  mav_param mp' = mav_param mp /\
  logqueue mp' = logqueue mp.
Proof.
  intros Hmaster Hrun.
  destruct (Z.lt_ge_cases (py_add_float usec 60000000)
                           (Link.highest_usec m0))
    as [Hwrap | Hno].
  - rewrite (handle_usec_wrap_eq usec master mp m0 Hmaster Hwrap) in Hrun.
    injection Hrun as <- <-. cbn. split; [apply length_fmap |].
    split; [| repeat split].
    intros j m Hj. eexists. rewrite list_lookup_fmap, Hj. cbn.
    split; [reflexivity |]. repeat split. intros Hnot. contradiction.
  - destruct (handle_usec_no_wrap_shape usec master mp m0 Hmaster Hno)
      as (delayed & out' & Hshape).
    rewrite Hshape in Hrun. injection Hrun as <- <-. cbn.
    split; [apply length_insert |]. split; [| repeat split].
    intros j m Hj. destruct (decide (j = master)) as [-> | Hne].
    + rewrite Hmaster in Hj. injection Hj as <-.
      eexists. split.
      * apply list_lookup_insert_eq. eapply lookup_lt_Some, Hmaster.
      * repeat split. intros _ Hself. contradiction.
    + exists m. rewrite list_lookup_insert_ne by congruence.
      repeat split. exact Hj.
Qed.

Lemma handle_usec_timestamp_frame_witness :
  mav_master lagging_state !! 0%nat = Some (sample_link 0 true 900000) /\
  exists (mp' : MPState) (out : list event),
    handle_usec_timestamp 1500001 0 lagging_state = Some (mp', out) /\
    length (mav_master mp') = 2%nat /\
    mav_master mp' !! 1%nat = mav_master lagging_state !! 1%nat.
Proof.
  split; [reflexivity |].
  destruct (handle_usec_timestamp 1500001 0 lagging_state)
    as [[mp' out]|] eqn:Hrun; [| discriminate Hrun].
  destruct (handle_usec_timestamp_frame 1500001 0 lagging_state mp' out
              (sample_link 0 true 900000) eq_refl Hrun)
    as (Hlen & Hlinks & _).
  exists mp', out. split; [reflexivity |]. split; [exact Hlen |].
  destruct (Hlinks 1%nat (sample_link 1 false 2000000) eq_refl)
    as (m' & Hm' & _ & _ & _ & Hsame).
  rewrite Hm'. cbn. f_equal.
  apply Hsame; [intros H; vm_compute in H; discriminate H | discriminate].
Defined.

(** ** Heartbeat audit: what it keeps *)

(** The audit of one master changes nothing but the error flag, and only
    from false to true. *)
Lemma check_master_keeps (tnow : Q) (m : Link.t) :
  let m' := fst (check_master tnow m) in
  Link.linknum m' = Link.linknum m /\
  Link.link_delayed m' = Link.link_delayed m /\
  Link.last_heartbeat m' = Link.last_heartbeat m /\
  Link.highest_usec m' = Link.highest_usec m /\
  (Link.linkerror m = true -> Link.linkerror m' = true).
Proof.
  unfold check_master.
  destruct (negb (Link.linkerror m) && Qgtb tnow _); cbn.
  - repeat split.
  - repeat split; trivial.
Qed.

(** The audit of a list of masters is the audit of each one. *)
Lemma check_masters_fmap (tnow : Q) (masters : list Link.t) :
  fst (check_masters tnow masters)
  = (fun m => fst (check_master tnow m)) <$> masters.
Proof.
  induction masters as [|m rest IH]; [reflexivity |].
  rewrite fmap_cons, <- IH. cbn [check_masters].
  destruct (check_master tnow m) as [m' out].
  now destruct (check_masters tnow rest) as [rest' out'].
Qed.

(** A master audited once is left alone, silently, by a second audit at
    the same instant. *)
Lemma check_master_again (tnow : Q) (m : Link.t) :
  check_master tnow (fst (check_master tnow m))
  = (fst (check_master tnow m), []).
Proof.
  destruct (check_master tnow m) as [m' out] eqn:Hm. cbn [fst].
  unfold check_master in Hm.
  destruct (negb (Link.linkerror m) && Qgtb tnow _) eqn:Hdown;
    injection Hm as <- <-.
  - reflexivity.
  - unfold check_master. now rewrite Hdown.
Qed.

Lemma check_masters_again (tnow : Q) (masters : list Link.t) :
  check_masters tnow (fst (check_masters tnow masters))
  = (fst (check_masters tnow masters), []).
Proof.
  induction masters as [|m rest IH]; [reflexivity |].
  cbn [check_masters].
  destruct (check_master tnow m) as [m' out] eqn:Hm.
  destruct (check_masters tnow rest) as [rest' out'] eqn:Hrest.
  cbn [fst] in *. cbn [check_masters].
  assert (Hm' : check_master tnow m' = (m', [])).
  { pose proof (check_master_again tnow m) as H. now rewrite Hm in H. }
  now rewrite Hm', IH.
Qed.

(** [check_link_status] never clears an error: a link that was marked
    down stays marked, and so does [heartbeat_error].  It keeps the
    number of links and, link by link, every attribute but [linkerror];
    in the status it touches [heartbeat_error] only; the settings, the
    parameters and the log queue are as before. *)
Theorem check_link_status_only_raises_errors (tnow : Q) (mp : MPState) :
  let mp' := fst (check_link_status tnow mp) in
  length (mav_master mp') = length (mav_master mp) /\
  (forall (j : nat) (m : Link.t),
      mav_master mp !! j = Some m ->
      exists m' : Link.t,
        mav_master mp' !! j = Some m' /\
        Link.linknum m' = Link.linknum m /\
        Link.link_delayed m' = Link.link_delayed m /\
        Link.last_heartbeat m' = Link.last_heartbeat m /\
        Link.highest_usec m' = Link.highest_usec m /\
        (Link.linkerror m = true -> Link.linkerror m' = true)) /\
  (Status.heartbeat_error (status mp) = true ->
   Status.heartbeat_error (status mp') = true) /\
  Status.set_heartbeat_error (Status.heartbeat_error (status mp))
                             (status mp')
  = Status.set_heartbeat_error (Status.heartbeat_error (status mp))
                               (status mp) /\
  settings mp' = settings mp /\
  mav_param mp' = mav_param mp /\
  logqueue mp' = logqueue mp.
Proof.
  unfold check_link_status.
  pose proof (check_masters_fmap tnow (mav_master mp)) as Hlinks.
  destruct (check_masters tnow (mav_master mp)) as [links out'].
  cbn [fst] in Hlinks. subst links.
  destruct (negb (Qeq_bool _ 0) && Qgtb tnow _); cbn.
  - split; [apply length_fmap |]. split; [| repeat split].
    intros j m Hj. eexists. rewrite list_lookup_fmap, Hj. cbn.
    split; [reflexivity |]. apply (check_master_keeps tnow m).
  - split; [apply length_fmap |]. split; [| repeat split; trivial].
    intros j m Hj. eexists. rewrite list_lookup_fmap, Hj. cbn.
    split; [reflexivity |]. apply (check_master_keeps tnow m).
Qed.

(** A second audit at the same instant changes nothing and announces no
    link: the loss of a link is reported once. Only "no heartbeat" can
    be said again. *)
Theorem check_link_status_again (tnow : Q) (mp : MPState) :
  let first := check_link_status tnow mp in
  let second := check_link_status tnow (fst first) in
  fst second = fst first /\
  (snd second = [] \/ snd second = [Say "no heartbeat" []]).
Proof.
  cbv zeta.
  destruct (check_link_status tnow mp) as [mp1 out1] eqn:Hfirst. cbn [fst].
  unfold check_link_status in Hfirst.
  pose proof (check_masters_again tnow (mav_master mp)) as Hagain.
  destruct (check_masters tnow (mav_master mp)) as [links out'].
  cbn [fst] in Hagain.
  destruct (negb (Qeq_bool (Status.last_heartbeat (status mp)) 0)
            && Qgtb tnow (Status.last_heartbeat (status mp) + 5)) eqn:Hlost;
    injection Hfirst as <- <-; unfold check_link_status; cbn;
    rewrite Hlost, Hagain.
  - split; [reflexivity | right; reflexivity].
  - split; [| left; reflexivity]. now destruct mp.
Qed.

(** While the vehicle has been heard within the last five seconds, or
    never, and every link either has been heard within five seconds or
    is already marked down, the audit says nothing and changes
    nothing. *)
Theorem check_link_status_quiet (tnow : Q) (mp : MPState) :
  (Status.last_heartbeat (status mp) == 0)%Q
  \/ (tnow <= Status.last_heartbeat (status mp) + 5)%Q ->
  Forall (fun m => Link.linkerror m = true
                   \/ (tnow <= Link.last_heartbeat m + 5)%Q)
         (mav_master mp) ->
  snd (check_link_status tnow mp) = [] /\
  status (fst (check_link_status tnow mp)) = status mp /\
  mav_master (fst (check_link_status tnow mp)) = mav_master mp.
Proof.
  intros Hengine Hlinks. unfold check_link_status.
  assert (Hquiet : check_masters tnow (mav_master mp) = (mav_master mp, [])).
  { induction Hlinks as [|m rest Hm Hrest IH]; [reflexivity |].
    cbn [check_masters]. rewrite IH.
    assert (Hkeep : check_master tnow m = (m, [])).
    { unfold check_master. destruct Hm as [Hm | Hm].
      - now rewrite Hm.
      - apply Qgtb_false in Hm. now rewrite Hm, andb_false_r. }
    now rewrite Hkeep. }
  rewrite Hquiet.
  assert (Hno : negb (Qeq_bool (Status.last_heartbeat (status mp)) 0)
                && Qgtb tnow (Status.last_heartbeat (status mp) + 5)
                = false).
  { destruct Hengine as [Hnever | Hrecent].
    - apply Qeq_bool_iff in Hnever. now rewrite Hnever.
    - apply Qgtb_false in Hrecent. now rewrite Hrecent, andb_false_r. }
  rewrite Hno. cbn. repeat split.
Qed.

Lemma check_link_status_quiet_witness :
  (6 <= Status.last_heartbeat (status silent_state) + 5)%Q /\
  check_link_status 6 silent_state
  = (silent_state, []).
Proof.
  split; [discriminate |].
  destruct (check_link_status_quiet 6 silent_state) as (Hout & Hst & Hls).
  - right. discriminate.
  - constructor; [right; discriminate | constructor].
  - reflexivity.
Defined.

(** ** Heartbeats *)

(** The state a heartbeat leaves, as an equation: the target is the
    source of the heartbeat, both error flags are cleared and both
    heartbeat times are [tnow]. *)
Lemma on_heartbeat_shape
    (srcSystem srcComponent : Z) (master : nat) (tnow : Q)
    (target : Target) (mp : MPState) (m : Link.t) :
  mav_master mp !! master = Some m ->
  exists out : list event,
    on_heartbeat srcSystem srcComponent master tnow target mp
    = Some (mkTarget srcSystem srcComponent,
            set_mav_master
              (<[master := Link.mk (Link.linknum m) false
                                   (Link.link_delayed m) tnow
                                   (Link.highest_usec m)]>
                 (mav_master mp))
              (set_status
                 (Status.mk (Status.AP_ADC (status mp))
                            (Status.wploader (status mp))
                            (Status.loading_waypoints (status mp))
                            (Status.loading_waypoint_lasttime (status mp))
                            (Status.battery_level (status mp))
                            (Status.avionics_battery_level (status mp))
                            tnow false
                            (Status.highest_usec (status mp)))
                 mp),
            out) /\
    (target = mkTarget srcSystem srcComponent ->
     Status.heartbeat_error (status mp) = false ->
     Link.linkerror m = false ->
     out = []).
Proof.
  intros Hmaster. unfold on_heartbeat. rewrite Hmaster.
  assert (Htarget :
            (if negb (target_system target =? srcSystem)
                || negb (target_component target =? srcComponent)
             then (mkTarget srcSystem srcComponent,
                   [Say "online system %u component %u"
                        [PInt srcSystem; PInt srcComponent]])
             else (target, []))
            = (mkTarget srcSystem srcComponent,
               if negb (target_system target =? srcSystem)
                  || negb (target_component target =? srcComponent)
               then [Say "online system %u component %u"
                         [PInt srcSystem; PInt srcComponent]]
               else [])).
  { destruct (Z.eqb_spec (target_system target) srcSystem) as [Hs | Hs];
      [| reflexivity].
    destruct (Z.eqb_spec (target_component target) srcComponent)
      as [Hc | Hc]; [| reflexivity].
    cbn. destruct target. cbn in *. congruence. }
  rewrite Htarget.
  destruct (Status.heartbeat_error (status mp)) eqn:Hhb;
    destruct (Link.linkerror m) eqn:Herr; cbn; rewrite ?Hhb, ?Herr;
    (eexists; split; [reflexivity |]); intros Heq Hhb' Herr';
    try discriminate.
  subst target. cbn. now rewrite !Z.eqb_refl.
Qed.

(** Every announcement of the audit of the links is a "link down". *)
Lemma check_masters_events (tnow : Q) (masters : list Link.t) :
  Forall (fun e => exists n : Z, e = Say "link %u down" [PInt n])
         (snd (check_masters tnow masters)).
Proof.
  induction masters as [|m rest IH]; [constructor |].
  cbn [check_masters].
  destruct (check_master tnow m) as [m' out] eqn:Hm.
  destruct (check_masters tnow rest) as [rest' out']. cbn [snd] in *.
  apply Forall_app. split; [| exact IH].
  unfold check_master in Hm.
  destruct (negb (Link.linkerror m) && Qgtb tnow _);
    injection Hm as <- <-; repeat constructor. eauto.
Qed.

(** A heartbeat restores the link it arrives on, when that link is not
    delayed ([master_callback] drops the messages of a delayed link
    before the branch): whatever the error flags, the target and the
    heartbeat times before, afterwards the target is the source of the
    heartbeat, [heartbeat_error] and the link's [linkerror] are false,
    and the engine-wide and the link's [last_heartbeat] are both the
    time of arrival; the link is still not delayed, its highest time
    stamp and the other links are as before. *)
Theorem on_heartbeat_restores
    (srcSystem srcComponent : Z) (master : nat) (tnow : Q)
    (target : Target) (mp : MPState) (m : Link.t) :
  mav_master mp !! master = Some m ->
  Link.link_delayed m = false ->
  exists (target' : Target) (mp' : MPState) (out : list event)
         (m' : Link.t),
    on_heartbeat srcSystem srcComponent master tnow target mp
    = Some (target', mp', out) /\
    target_system target' = srcSystem /\
    target_component target' = srcComponent /\
    Status.heartbeat_error (status mp') = false /\
    Status.last_heartbeat (status mp') = tnow /\
    mav_master mp' !! master = Some m' /\
    Link.linkerror m' = false /\
    Link.last_heartbeat m' = tnow /\
    Link.link_delayed m' = false /\
    Link.highest_usec m' = Link.highest_usec m /\
    (forall j : nat, j <> master ->
                     mav_master mp' !! j = mav_master mp !! j).
Proof.
  intros Hmaster Hdelayed.
  destruct (on_heartbeat_shape srcSystem srcComponent master tnow target
              mp m Hmaster) as (out & Hrun & _).
  eexists _, _, out, _. split; [exact Hrun |]. cbn.
  split; [reflexivity |]. split; [reflexivity |].
  split; [reflexivity |]. split; [reflexivity |].
  split; [apply list_lookup_insert_eq; eapply lookup_lt_Some, Hmaster |].
  cbn. split; [reflexivity |]. split; [reflexivity |].
  split; [exact Hdelayed |]. split; [reflexivity |].
  intros j Hj. now apply list_lookup_insert_ne.
Qed.

Lemma on_heartbeat_restores_witness :
  mav_master lost_state !! 0%nat = Some (Link.mk 0 true false 1 0) /\
  Link.link_delayed (Link.mk 0 true false 1 0) = false /\
  on_heartbeat 1 2 0 30 no_target lost_state
  = Some (mkTarget 1 2,
          mkState (mkSettings 1 0)
                  (Status.mk None [] false 0 (-1) (-1) 30 false 0)
                  [Link.mk 0 false false 30 0; Link.mk 1 false false 20 0]
                  ∅ (Some []),
          [Say "online system %u component %u" [PInt 1; PInt 2];
           Say "heartbeat OK" []; Say "link %u OK" [PInt 1]]).
Proof.
  split; [reflexivity |]. split; [reflexivity |].
  destruct (on_heartbeat_restores 1 2 0 30 no_target lost_state
              (Link.mk 0 true false 1 0) eq_refl eq_refl)
    as (target' & mp' & out & m' & Hrun & _).
  rewrite Hrun. symmetry. rewrite <- Hrun. reflexivity.
Defined.

(** A second heartbeat from the same source on the same link announces
    nothing: "online", "heartbeat OK" and "link OK" are said once. *)
Theorem on_heartbeat_twice_silent
    (srcSystem srcComponent : Z) (master : nat) (tnow tnext : Q)
    (target target' : Target) (mp mp' : MPState) (out : list event) :
  on_heartbeat srcSystem srcComponent master tnow target mp
  = Some (target', mp', out) ->
  exists mp'' : MPState,
    on_heartbeat srcSystem srcComponent master tnext target' mp'
    = Some (target', mp'', []).
Proof.
  intros Hrun.
  destruct (mav_master mp !! master) as [m|] eqn:Hmaster;
    [| unfold on_heartbeat in Hrun; rewrite Hmaster in Hrun; discriminate].
  destruct (on_heartbeat_shape srcSystem srcComponent master tnow target
              mp m Hmaster) as (out1 & Hshape & _).
  rewrite Hshape in Hrun. injection Hrun as <- <- <-.
  set (m1 := Link.mk (Link.linknum m) false (Link.link_delayed m) tnow
                     (Link.highest_usec m)).
  match goal with
  | |- context [on_heartbeat _ _ _ tnext _ ?s] => set (mp1 := s)
  end.
  assert (Hm1 : mav_master mp1 !! master = Some m1).
  { cbn. apply list_lookup_insert_eq. eapply lookup_lt_Some, Hmaster. }
  destruct (on_heartbeat_shape srcSystem srcComponent master tnext
              (mkTarget srcSystem srcComponent) mp1 m1 Hm1)
    as (out2 & Hagain & Hsilent).
  specialize (Hsilent eq_refl eq_refl eq_refl). subst out2.
  eexists. exact Hagain.
Qed.

Lemma on_heartbeat_twice_silent_witness :
  exists (target' : Target) (mp' mp'' : MPState) (out : list event),
    on_heartbeat 1 2 0 30 no_target lost_state = Some (target', mp', out) /\
    on_heartbeat 1 2 0 31 target' mp' = Some (target', mp'', []).
Proof.
  destruct (on_heartbeat 1 2 0 30 no_target lost_state)
    as [[[target' mp'] out]|] eqn:Hrun; [| discriminate Hrun].
  destruct (on_heartbeat_twice_silent 1 2 0 30 31 no_target target'
              lost_state mp' out Hrun) as (mp'' & Hagain).
  exists target', mp', mp'', out. split; [reflexivity | exact Hagain].
Defined.

(** A heartbeat on a link that is not delayed keeps the audit quiet for
    five seconds: an audit run up to five seconds after the heartbeat
    leaves [heartbeat_error] false, does not say "no heartbeat", and
    leaves the link the heartbeat arrived on not in error.  (The
    heartbeat of a delayed link is dropped before the branch.) *)
Theorem heartbeat_then_audit
    (srcSystem srcComponent : Z) (master : nat) (tnow tcheck : Q)
    (target target' : Target) (mp mp' : MPState) (out : list event)
    (m : Link.t) :
  mav_master mp !! master = Some m ->
  Link.link_delayed m = false ->
  on_heartbeat srcSystem srcComponent master tnow target mp
  = Some (target', mp', out) ->
  (tcheck <= tnow + 5)%Q ->
  Status.heartbeat_error (status (fst (check_link_status tcheck mp')))
  = false /\
  (Say "no heartbeat" [] ∉ snd (check_link_status tcheck mp')) /\
  exists m' : Link.t,
    mav_master (fst (check_link_status tcheck mp')) !! master = Some m' /\
    Link.linkerror m' = false.
Proof.
  intros Hmaster Hdelayed Hrun Hsoon.
  destruct (on_heartbeat_shape srcSystem srcComponent master tnow target
              mp m Hmaster) as (out1 & Hshape & _).
  rewrite Hshape in Hrun. injection Hrun as <- <- <-.
  apply Qgtb_false in Hsoon.
  unfold check_link_status. cbn [status set_status set_mav_master
    mav_master Status.last_heartbeat Status.heartbeat_error].
  rewrite Hsoon, andb_false_r.
  pose proof (check_masters_fmap tcheck
                (<[master := Link.mk (Link.linknum m) false
                                     (Link.link_delayed m) tnow
                                     (Link.highest_usec m)]>
                   (mav_master mp))) as Hlinks.
  pose proof (check_masters_events tcheck
                (<[master := Link.mk (Link.linknum m) false
                                     (Link.link_delayed m) tnow
                                     (Link.highest_usec m)]>
                   (mav_master mp))) as Hevents.
  destruct (check_masters tcheck _) as [links out'].
  cbn [fst snd] in *. subst links. cbn. split; [reflexivity |]. split.
  - intros Hin. rewrite Forall_forall in Hevents.
    destruct (Hevents _ Hin) as (n & Hn). discriminate.
  - eexists. rewrite list_lookup_fmap, list_lookup_insert_eq
      by (eapply lookup_lt_Some, Hmaster).
    cbn. split; [reflexivity |].
    unfold check_master. cbn. now rewrite Hsoon.
Qed.

Lemma heartbeat_then_audit_witness :
  mav_master lost_state !! 0%nat = Some (Link.mk 0 true false 1 0) /\
  Link.link_delayed (Link.mk 0 true false 1 0) = false /\
  (35 <= 30 + 5)%Q /\
  exists (target' : Target) (mp' : MPState) (out : list event),
    on_heartbeat 1 2 0 30 no_target lost_state = Some (target', mp', out) /\
    Status.heartbeat_error (status (fst (check_link_status 35 mp'))) = false.
Proof.
  split; [reflexivity |]. split; [reflexivity |].
  split; [discriminate |].
  destruct (on_heartbeat 1 2 0 30 no_target lost_state)
    as [[[target' mp'] out]|] eqn:Hrun; [| discriminate Hrun].
  exists target', mp', out. split; [reflexivity |].
  apply (heartbeat_then_audit 1 2 0 30 35 no_target target' lost_state mp'
           out (Link.mk 0 true false 1 0) eq_refl eq_refl Hrun).
  discriminate.
Defined.

(** Failback: when [settings.link] names an existing link that is not
    delayed, a heartbeat on that link makes it the chosen master again,
    whether or not it was marked down before and whatever the state of
    the other links.  (The heartbeat of a delayed link is dropped before
    the branch.) *)
Theorem heartbeat_brings_preferred_link_back
    (srcSystem srcComponent : Z) (tnow : Q)
    (target target' : Target) (mp mp' : MPState) (out : list event)
    (m : Link.t) :
  1 <= link (settings mp) <= Z.of_nat (length (mav_master mp)) ->
  mav_master mp !! Z.to_nat (link (settings mp) - 1) = Some m ->
  Link.link_delayed m = false ->
  on_heartbeat srcSystem srcComponent (Z.to_nat (link (settings mp) - 1))
               tnow target mp
  = Some (target', mp', out) ->
  master mp' = (Ok (Z.to_nat (link (settings mp) - 1)), mp').
Proof.
  intros Hlink Hmaster Hdelayed Hrun.
  set (i := Z.to_nat (link (settings mp) - 1)) in *.
  destruct (on_heartbeat_shape srcSystem srcComponent i tnow target
              mp m Hmaster) as (out1 & Hshape & _).
  rewrite Hshape in Hrun. injection Hrun as <- <- <-.
  set (m1 := Link.mk (Link.linknum m) false (Link.link_delayed m) tnow
                     (Link.highest_usec m)).
  match goal with |- master ?s = _ => set (mp1 := s) end.
  assert (Hlen : length (mav_master mp1) = length (mav_master mp))
    by apply length_insert.
  assert (Hget : py_getitem (mav_master mp1) (link (settings mp1) - 1)
                 = Ok (i, m1)).
  { assert (Hm1 : mav_master mp1 !! i = Some m1).
    { cbn. apply list_lookup_insert_eq. eapply lookup_lt_Some, Hmaster. }
    assert (Hpos : (link (settings mp) - 1 <? 0) = false)
      by (apply Z.ltb_ge; lia).
    unfold py_getitem. change (link (settings mp1)) with (link (settings mp)).
    cbv zeta. rewrite !Hpos. fold i. now rewrite Hm1. }
  rewrite (master_no_normalisation mp1 i m1); [reflexivity | | exact Hget].
  rewrite Hlen. cbn. lia.
Qed.

Lemma heartbeat_brings_preferred_link_back_witness :
  1 <= link (settings lost_state)
  <= Z.of_nat (length (mav_master lost_state)) /\
  mav_master lost_state !! Z.to_nat (link (settings lost_state) - 1)
  = Some (Link.mk 0 true false 1 0) /\
  Link.link_delayed (Link.mk 0 true false 1 0) = false /\
  fst (master lost_state) = Ok 1%nat /\
  exists (target' : Target) (mp' : MPState) (out : list event),
    on_heartbeat 1 2 0 30 no_target lost_state = Some (target', mp', out) /\
    master mp' = (Ok 0%nat, mp').
Proof.
  split; [split; discriminate |]. split; [reflexivity |].
  split; [reflexivity |]. split; [reflexivity |].
  destruct (on_heartbeat 1 2 0 30 no_target lost_state)
    as [[[target' mp'] out]|] eqn:Hrun; [| discriminate Hrun].
  exists target', mp', out. split; [reflexivity |].
  apply (heartbeat_brings_preferred_link_back 1 2 30 no_target target'
           lost_state mp' out (Link.mk 0 true false 1 0));
    [split; discriminate | reflexivity | reflexivity | exact Hrun].
Defined.

(** ** Master selector: when it raises *)

(** [master()] raises [IndexError] exactly when there is no link at all
    or [settings.link] is at or below minus the number of links; in every
    other state it returns a link. *)
Theorem master_raises_iff (mp : MPState) :
  fst (master mp) = Raise IndexError
  <-> mav_master mp = []
      \/ link (settings mp) <= - Z.of_nat (length (mav_master mp)).
Proof.
  split.
  - intros Hraise.
    destruct (mav_master mp) as [|m0 ms] eqn:Hlinks; [now left |]. right.
    destruct (Z.le_gt_cases (link (settings mp))
                (- Z.of_nat (length (m0 :: ms)))) as [Hle | Hgt];
      [exact Hle | exfalso].
    rewrite <- Hlinks in Hgt.
    assert (Hne : mav_master mp <> []) by (rewrite Hlinks; discriminate).
    rewrite (master_normalises mp Hne) in Hraise.
    set (mp1 := if link (settings mp) >? Z.of_nat (length (mav_master mp))
                then set_settings (mkSettings 1 (numcells (settings mp))) mp
                else mp) in *.
    assert (Hsame : mav_master mp1 = mav_master mp).
    { subst mp1. now destruct (_ >? _). }
    assert (Hrange : - Z.of_nat (length (mav_master mp1))
                     < link (settings mp1)
                     <= Z.of_nat (length (mav_master mp1))).
    { rewrite Hsame. subst mp1.
      destruct (Z.gtb_spec (link (settings mp))
                           (Z.of_nat (length (mav_master mp)))); cbn.
      - rewrite Hlinks. cbn [length]. lia.
      - lia. }
    destruct (py_getitem_in_range (mav_master mp1) (link (settings mp1) - 1))
      as (x & Hget & _); [lia |].
    rewrite (master_no_normalisation mp1 _ x ltac:(lia) Hget) in Hraise.
    discriminate.
  - intros Hbad. unfold master.
    set (mp1 := if link (settings mp) >? Z.of_nat (length (mav_master mp))
                then set_settings (mkSettings 1 (numcells (settings mp))) mp
                else mp).
    assert (Hsame : mav_master mp1 = mav_master mp).
    { subst mp1. now destruct (_ >? _). }
    rewrite py_getitem_out_of_range; [reflexivity |].
    rewrite Hsame. subst mp1.
    destruct (Z.gtb_spec (link (settings mp))
                         (Z.of_nat (length (mav_master mp)))); cbn.
    + destruct Hbad as [Hnil | Hlow]; [rewrite Hnil; cbn; lia | lia].
    + destruct Hbad as [Hnil | Hlow]; [rewrite Hnil in *; cbn in *; lia | lia].
Qed.

(** ** Waypoint upload: whole exchanges *)

(** One request served in time, as an equation. *)
Lemma process_waypoint_request_served
    (seq master : nat) (tnow tsent : Q) (mp : MPState) (w : waypoint) :
  Status.loading_waypoints (status mp) = true ->
  (tnow <= Status.loading_waypoint_lasttime (status mp) + 10)%Q ->
  Status.wploader (status mp) !! seq = Some w ->
  process_waypoint_request seq master tnow tsent mp
  = (set_status
       (Status.mk (Status.AP_ADC (status mp)) (Status.wploader (status mp))
                  (negb (Z.of_nat seq
                         =? Z.of_nat (length (Status.wploader (status mp)))
                            - 1))
                  tsent (Status.battery_level (status mp))
                  (Status.avionics_battery_level (status mp))
                  (Status.last_heartbeat (status mp))
                  (Status.heartbeat_error (status mp))
                  (Status.highest_usec (status mp))) mp,
     [MavSend master w;
      Print "Sent waypoint %u : %s" [PInt (Z.of_nat seq); PWaypoint w]]
     ++ (if Z.of_nat seq
            =? Z.of_nat (length (Status.wploader (status mp))) - 1
         then [Print "Sent all %u waypoints"
                     [PInt (Z.of_nat (length (Status.wploader (status mp))))]]
         else [])).
Proof.
  intros Hloading Hsoon Hw. unfold process_waypoint_request.
  assert (Hgt : Qgtb tnow (Status.loading_waypoint_lasttime (status mp)
                           + 10.0) = false) by (apply Qgtb_false; lra).
  rewrite Hloading, Hgt, Hw. cbn [negb orb].
  destruct (Z.of_nat seq =? _) eqn:Hlast; cbn.
  - reflexivity.
  - unfold Status.set_loading_waypoint_lasttime. now rewrite Hloading.
Qed.

Lemma sent_frames_app (out1 out2 : list event) :
  sent_frames (out1 ++ out2) = sent_frames out1 ++ sent_frames out2.
Proof. apply omap_app. Qed.

(** Requests for the items from [k] on, each in time, while the upload is
    running: the items from [k] on are sent in order and the upload is
    over after the last one. *)
Lemma serve_requests_from
    (times : list (Q * Q)) (k master : nat) (mp : MPState) :
  times <> [] ->
  Status.loading_waypoints (status mp) = true ->
  (k + length times)%nat = length (Status.wploader (status mp)) ->
  in_time (Status.loading_waypoint_lasttime (status mp)) times ->
  let '(mp', out) := serve_requests (requests_from k times) master mp in
  sent_frames out
  = (fun w => (master, w)) <$> drop k (Status.wploader (status mp)) /\
  Status.loading_waypoints (status mp') = false /\
  Status.wploader (status mp') = Status.wploader (status mp).
Proof.
  revert k mp. induction times as [|[tnow tsent] rest IH];
    intros k mp Hne Hloading Hlen Htimes; [contradiction |].
  cbn [requests_from serve_requests]. destruct Htimes as [Hsoon Hrest].
  cbn [length] in Hlen.
  destruct (Status.wploader (status mp) !! k) as [w|] eqn:Hw;
    [| apply lookup_ge_None in Hw; lia].
  rewrite (process_waypoint_request_served k master tnow tsent mp w
             Hloading Hsoon Hw).
  rewrite (drop_S _ _ _ Hw). rewrite fmap_cons.
  destruct rest as [|next rest'].
  - assert (Hlast : (Z.of_nat k
                     =? Z.of_nat (length (Status.wploader (status mp))) - 1)
                    = true) by (apply Z.eqb_eq; cbn [length] in Hlen; lia).
    rewrite Hlast. cbn.
    rewrite drop_ge by (cbn [length] in Hlen; lia).
    repeat split.
  - assert (Hmore : (Z.of_nat k
                     =? Z.of_nat (length (Status.wploader (status mp))) - 1)
                    = false) by (apply Z.eqb_neq; cbn [length] in Hlen; lia).
    rewrite Hmore. cbn [negb].
    match goal with
    | |- context [serve_requests _ _ ?s] => set (mp1 := s)
    end.
    specialize (IH (S k) mp1).
    destruct (serve_requests (requests_from (S k) (next :: rest')) master mp1)
      as [mp2 out2].
    destruct IH as (Hsent & Hdone & Hloader);
      [discriminate | reflexivity | cbn [length] in *; cbn; lia
       | exact Hrest |].
    cbn in Hsent, Hloader. rewrite sent_frames_app, Hsent.
    split; [reflexivity | split; [exact Hdone | exact Hloader]].
Qed.

(** A whole upload: with the upload running and the vehicle requesting
    the items 0, 1, ... one after the other, each request at most ten
    seconds after the previous activity, every item of the loader is
    sent once, in order, to the requesting link, the loader is not
    changed, and [loading_waypoints] is false once the last item has
    been sent. *)
Theorem upload_in_order
    (times : list (Q * Q)) (master : nat) (mp : MPState) :
  Status.wploader (status mp) <> [] ->
  Status.loading_waypoints (status mp) = true ->
  length times = length (Status.wploader (status mp)) ->
  in_time (Status.loading_waypoint_lasttime (status mp)) times ->
  sent_frames (snd (serve_requests (requests_from 0 times) master mp))
  = (fun w => (master, w)) <$> Status.wploader (status mp) /\
  Status.loading_waypoints
    (status (fst (serve_requests (requests_from 0 times) master mp)))
  = false /\
  Status.wploader
    (status (fst (serve_requests (requests_from 0 times) master mp)))
  = Status.wploader (status mp).
Proof.
  intros Hne Hloading Hlen Htimes.
  pose proof (serve_requests_from times 0 master mp) as H.
  destruct (serve_requests (requests_from 0 times) master mp) as [mp' out].
  apply H; try assumption.
  intros ->. destruct (Status.wploader (status mp)); [contradiction |].
  discriminate.
Qed.

Lemma upload_in_order_witness :
  Status.wploader (status uploading_state) <> [] /\
  in_time (Status.loading_waypoint_lasttime (status uploading_state))
          [(3%Q, 3.5%Q); (12%Q, 12%Q)] /\
  sent_frames
    (snd (serve_requests
            (requests_from 0 [(3%Q, 3.5%Q); (12%Q, 12%Q)]) 0
            uploading_state))
  = [(0%nat, ["001"%byte]); (0%nat, ["002"%byte])].
Proof.
  assert (Htimes : in_time
                     (Status.loading_waypoint_lasttime
                        (status uploading_state))
                     [(3%Q, 3.5%Q); (12%Q, 12%Q)]).
  { cbn. repeat split; discriminate. }
  split; [discriminate | split; [exact Htimes |]].
  apply (upload_in_order [(3%Q, 3.5%Q); (12%Q, 12%Q)] 0 uploading_state);
    [discriminate | reflexivity | reflexivity | exact Htimes].
Defined.


(** ** Parsed log: further properties *)

Lemma journal_record_witness :
  "HEARTBEAT" <> "BAD_DATA" /\
  logqueue (sample_state [] 0) = Some [] /\
  0 <= log_stamp 1000000 (sample_link 1 false 0) < 2 ^ 64 /\
  parse_record (be_bytes 8 (log_stamp 1000000 (sample_link 1 false 0))
                ++ sample_frame)
  = (1000001, sample_frame).
Proof.
  split; [discriminate | split; [reflexivity |]].
  split; [split; [discriminate | reflexivity] |].
  apply (journal_record "HEARTBEAT" sample_frame (sample_link 1 false 0)
           1000000 (sample_state [] 0) []);
    [discriminate | reflexivity | split; [discriminate | reflexivity]].
Defined.

(** The time with its two low bits cleared is the time minus its
    remainder modulo 4. *)
Lemma land_lnot_3 (usec : Z) : Z.land usec (Z.lnot 3) = usec - usec mod 4.
Proof.
  change (Z.lnot 3) with (Z.lnot (Z.ones 2)).
  rewrite <- Z.ldiff_land, Z.ldiff_ones_r by lia.
  rewrite Z.shiftr_div_pow2, Z.shiftl_mul_pow2 by lia.
  change (2 ^ 2) with 4. pose proof (Z.div_mod usec 4). lia.
Qed.

(** The cleared time and a link number from 0 to 3 share no bit. *)
Lemma land_time_link (usec n : Z) :
  0 <= n < 4 -> Z.land (Z.land usec (Z.lnot 3)) n = 0.
Proof.
  intros Hn. rewrite <- (Z.mod_small n 4) by lia. change 4 with (2 ^ 2).
  rewrite <- Z.land_ones by lia.
  rewrite <- Z.land_assoc, (Z.land_assoc (Z.lnot 3)),
    (Z.land_comm (Z.lnot 3) n), <- Z.land_assoc.
  change (Z.land (Z.lnot 3) (Z.ones 2)) with 0.
  now rewrite !Z.land_0_r.
Qed.

(** For a link number from 0 to 3 the stamp is the time rounded down to
    a multiple of 4 plus the link number. *)
Lemma log_stamp_sum (usec : Z) (master : Link.t) :
  0 <= Link.linknum master < 4 ->
  log_stamp usec master = usec - usec mod 4 + Link.linknum master.
Proof.
  intros Hn. unfold log_stamp.
  rewrite <- Z.lxor_lor, <- Z.add_nocarry_lxor
    by (apply land_time_link, Hn).
  now rewrite land_lnot_3.
Qed.

(** With at most four links the stamp of a record keeps the time to
    within three microseconds and the link number can be read back from
    its two low bits: the stamp divided by 4 is the time divided by 4,
    and the stamp modulo 4 is the link number. *)
Theorem log_stamp_keeps_time (usec : Z) (master : Link.t) :
  0 <= Link.linknum master < 4 ->
  log_stamp usec master / 4 = usec / 4 /\
  log_stamp usec master mod 4 = Link.linknum master /\
  usec - 3 <= log_stamp usec master <= usec + 3.
Proof.
  intros Hn. rewrite (log_stamp_sum usec master Hn).
  pose proof (Z.div_mod usec 4 ltac:(lia)) as Hdm.
  pose proof (Z.mod_pos_bound usec 4 ltac:(lia)) as Hmod.
  assert (Hshape : usec - usec mod 4 + Link.linknum master
                   = Link.linknum master + usec / 4 * 4) by lia.
  rewrite Hshape. split; [| split].
  - rewrite Z.div_add by lia. rewrite Z.div_small by lia. lia.
  - rewrite Z.mod_add by lia. apply Z.mod_small. lia.
  - lia.
Qed.

Lemma log_stamp_keeps_time_witness :
  0 <= Link.linknum (sample_link 3 false 0) < 4 /\
  log_stamp 1000001 (sample_link 3 false 0) = 1000003 /\
  log_stamp 1000001 (sample_link 3 false 0) mod 4 = 3.
Proof.
  split; [split; [discriminate | reflexivity] |].
  split; [reflexivity |].
  apply (log_stamp_keeps_time 1000001 (sample_link 3 false 0)).
  split; [discriminate | reflexivity].
Defined.

(** The journalling step touches nothing but the log queue, and the
    queue only grows at its end, by at most one record: either the queue
    is as before, or the frame was not bad data, the step returned, and
    one record was appended that is eight header bytes followed by the
    frame. *)
Theorem journal_appends_at_most_one
    (mtype : string) (msgbuf : list byte) (master : Link.t)
    (now_usec : Z) (mp : MPState) :
  let mp' := snd (journal mtype msgbuf master now_usec mp) in
  settings mp' = settings mp /\
  status mp' = status mp /\
  mav_master mp' = mav_master mp /\
  mav_param mp' = mav_param mp /\
  (logqueue mp' = logqueue mp
   \/ exists (queue : list (list byte)) (header : list byte),
       logqueue mp = Some queue /\
       logqueue mp' = Some (queue ++ [header ++ msgbuf]) /\
       length header = 8%nat /\
       mtype <> "BAD_DATA" /\
       fst (journal mtype msgbuf master now_usec mp) = Ok tt).
Proof.
  cbv zeta. unfold journal.
  destruct (String.eqb mtype "BAD_DATA") eqn:Htype; cbn [negb];
    [now repeat split; try left |].
  apply String.eqb_neq in Htype.
  destruct (logqueue mp) as [queue|] eqn:Hqueue;
    [| now repeat split; try left].
  unfold pack_Q. destruct (_ && _); cbn.
  - repeat split. right. exists queue, (be_bytes 8 (log_stamp now_usec master)).
    repeat split; trivial.
  - repeat split. now left.
Qed.

(** ** PWM scaling: shape of the map *)

(** The result of [scale_rc] when both limits are known, are not zero
    and differ: the affine map, clamped. *)
Lemma scale_rc_affine
    (servo : Z) (min max : Q) (param : string) (mp : MPState)
    (min_pwm max_pwm : Q) :
  mav_param mp !! (param +:+ "_MIN") = Some min_pwm ->
  mav_param mp !! (param +:+ "_MAX") = Some max_pwm ->
  ~ (min_pwm == 0)%Q -> ~ (max_pwm == 0)%Q -> ~ (max_pwm == min_pwm)%Q ->
  scale_rc servo min max param mp
  = Ok (let v := (min + (inject_Z servo - min_pwm) / (max_pwm - min_pwm)
                        * (max - min))%Q in
        let v := if Qltb v min then min else v in
        if Qgtb v max then max else v).
Proof.
  intros Hmin Hmax Hmin0 Hmax0 Hne.
  unfold scale_rc, get_mav_param. rewrite Hmin, Hmax.
  assert (H1 : Qeq_bool min_pwm 0 = false).
  { apply not_true_iff_false. now rewrite Qeq_bool_iff. }
  assert (H2 : Qeq_bool max_pwm 0 = false).
  { apply not_true_iff_false. now rewrite Qeq_bool_iff. }
  assert (H3 : Qeq_bool max_pwm min_pwm = false).
  { apply not_true_iff_false. now rewrite Qeq_bool_iff. }
  assert (H4 : Qeq_bool (max_pwm - min_pwm) 0 = false).
  { apply not_true_iff_false. rewrite Qeq_bool_iff. intros H. apply Hne. lra. }
  rewrite H1, H2, H3. cbn [orb]. unfold py_div. now rewrite H4.
Qed.

(** The two clamps keep the order of the values they are given. *)
Lemma clamp_monotone (v v' min max : Q) :
  (v <= v')%Q ->
  ((let v1 := if Qltb v min then min else v in
    if Qgtb v1 max then max else v1)
   <= (let v1 := if Qltb v' min then min else v' in
       if Qgtb v1 max then max else v1))%Q.
Proof.
  intros Hle. cbv zeta.
  destruct (Qltb v min) eqn:H1;
    [apply Qltb_true in H1 | apply Qltb_false in H1];
  destruct (Qltb v' min) eqn:H2;
    [apply Qltb_true in H2 | apply Qltb_false in H2 | apply Qltb_true in H2
     | apply Qltb_false in H2];
  repeat match goal with
         | |- context [Qgtb ?a ?b] =>
           let H := fresh "H" in
           destruct (Qgtb a b) eqn:H;
           [apply Qgtb_true in H | apply Qgtb_false in H]
         end; lra.
Qed.

(** The scale factor grows with the servo value when the upper limit is
    above the lower one. *)
Lemma scale_factor_monotone (servo servo' : Z) (min_pwm max_pwm : Q) :
  (min_pwm < max_pwm)%Q -> servo <= servo' ->
  ((inject_Z servo - min_pwm) / (max_pwm - min_pwm)
   <= (inject_Z servo' - min_pwm) / (max_pwm - min_pwm))%Q.
Proof.
  intros Hlt Hle. unfold Qdiv. apply Qmult_le_compat_r.
  - rewrite Zle_Qle in Hle. lra.
  - apply Qlt_le_weak, Qinv_lt_0_compat. lra.
Qed.

(** With limits [min_pwm < max_pwm], neither of them zero, and an output
    range with [min <= max], [scale_rc] is monotone in the servo value:
    a higher PWM never gives a lower result. *)
Theorem scale_rc_monotone
    (servo servo' : Z) (min max : Q) (param : string) (mp : MPState)
    (min_pwm max_pwm : Q) :
  mav_param mp !! (param +:+ "_MIN") = Some min_pwm ->
  mav_param mp !! (param +:+ "_MAX") = Some max_pwm ->
  ~ (min_pwm == 0)%Q -> ~ (max_pwm == 0)%Q ->
  (min_pwm < max_pwm)%Q -> (min <= max)%Q -> servo <= servo' ->
  exists v v' : Q,
    scale_rc servo min max param mp = Ok v /\
    scale_rc servo' min max param mp = Ok v' /\
    (v <= v')%Q.
Proof.
  intros Hmin Hmax Hmin0 Hmax0 Hlt Hrange Hle.
  assert (Hne : ~ (max_pwm == min_pwm)%Q) by lra.
  rewrite !(scale_rc_affine _ min max param mp min_pwm max_pwm)
    by assumption.
  eexists _, _. split; [reflexivity | split; [reflexivity |]].
  apply clamp_monotone. apply Qplus_le_r, Qmult_le_compat_r; [| lra].
  now apply scale_factor_monotone.
Qed.

Lemma scale_rc_monotone_witness :
  (0 <= 1)%Q /\ 1250 <= 1750 /\
  exists v v' : Q,
    scale_rc 1250 0 1 "RC3" throttle_rc_state = Ok v /\
    scale_rc 1750 0 1 "RC3" throttle_rc_state = Ok v' /\
    (v <= v')%Q.
Proof.
  split; [discriminate | split; [discriminate |]].
  apply (scale_rc_monotone 1250 1750 0 1 "RC3" throttle_rc_state 1000 2000);
    try reflexivity; discriminate.
Defined.



(** ** RC override *)

Lemma le_value_le_bytes_2 (v : Z) :
  0 <= v < 2 ^ 16 -> le_value (le_bytes 2 v) = v.
Proof.
  intros Hv. cbn [le_bytes le_value]. rewrite !Z_of_byte_of_Z.
  change (2 ^ 16) with 65536 in Hv.
  rewrite (Z.mod_small (v / 256) 256)
    by (split; [apply Z.div_pos; lia | apply Z.div_lt_upper_bound; lia]).
  pose proof (Z.div_mod v 256 ltac:(lia)). lia.
Qed.

(** Packing unsigned 16-bit values gives two bytes for each, and reading
    them back gives the values. *)
Lemma pack_Hs_round_trip (values : list Z) :
  Forall (fun v => 0 <= v < 2 ^ 16) values ->
  exists buf : list byte,
    pack_Hs values = Ok buf /\
    length buf = (2 * length values)%nat /\
    unpack_Hs (length values) buf = values.
Proof.
  induction 1 as [|v rest Hv Hrest (buf & Hpack & Hlen & Hback)].
  - exists []. repeat split.
  - cbn [pack_Hs]. rewrite Hpack.
    destruct (Z.leb_spec 0 v); [| lia].
    destruct (Z.ltb_spec v (2 ^ 16)); [| lia]. cbn [andb].
    exists (le_bytes 2 v ++ buf). split; [reflexivity |]. split.
    + rewrite length_app. cbn [le_bytes length]. lia.
    + cbn [length unpack_Hs].
      change (take 2 (le_bytes 2 v ++ buf)) with (le_bytes 2 v).
      change (drop 2 (le_bytes 2 v ++ buf)) with buf.
      now rewrite le_value_le_bytes_2, Hback.
Qed.

(** A value that does not fit sixteen bits makes the packing fail. *)
Lemma pack_Hs_out_of_range (values : list Z) :
  Exists (fun v => v < 0 \/ 2 ^ 16 <= v) values ->
  pack_Hs values = Raise StructError.
Proof.
  induction 1 as [v rest Hv | v rest Hrest IH]; cbn [pack_Hs].
  - destruct (Z.leb_spec 0 v); [| reflexivity].
    destruct (Z.ltb_spec v (2 ^ 16)); [lia | reflexivity].
  - rewrite IH. now destruct (_ && _).
Qed.

(** The SITL packet: with eight channel values that each fit sixteen
    bits, [send_rc_override] writes one packet of sixteen bytes to the
    SITL output, and reading the packet as eight little-endian 16-bit
    numbers gives the override vector back; the state is not touched.
    With a value that does not fit, nothing is written and
    [struct.error] is raised. *)
Theorem sitl_packet_round_trip
    (target : Target) (override : list Z) (mp : MPState) :
  length override = 8%nat ->
  (Forall (fun v => 0 <= v < 2 ^ 16) override ->
   exists buf : list byte,
     send_rc_override true target override mp = (Ok [SitlWrite buf], mp) /\
     length buf = 16%nat /\
     unpack_Hs 8 buf = override) /\
  (Exists (fun v => v < 0 \/ 2 ^ 16 <= v) override ->
   send_rc_override true target override mp = (Raise StructError, mp)).
Proof.
  intros Hlen. unfold send_rc_override, pack_8H. rewrite Hlen. cbn [Nat.eqb].
  split.
  - intros Hfit.
    destruct (pack_Hs_round_trip override Hfit) as (buf & Hpack & Hsize & Hback).
    rewrite Hpack. exists buf. rewrite Hlen in Hsize, Hback. now repeat split.
  - intros Hbad. now rewrite pack_Hs_out_of_range.
Qed.

Lemma sitl_packet_round_trip_witness :
  length [1500; 0; 0; 0; 0; 0; 0; 65535] = 8%nat /\
  send_rc_override true no_target [1500; 0; 0; 0; 0; 0; 0; 65535]
                   (sample_state [] 0)
  = (Ok [SitlWrite (le_bytes 2 1500 ++ le_bytes 12 0 ++ le_bytes 2 65535)],
     sample_state [] 0) /\
  send_rc_override true no_target [70000; 0; 0; 0; 0; 0; 0; 0]
                   (sample_state [] 0)
  = (Raise StructError, sample_state [] 0).
Proof.
  split; [reflexivity |].
  destruct (sitl_packet_round_trip no_target [1500; 0; 0; 0; 0; 0; 0; 65535]
              (sample_state [] 0) eq_refl) as [Hfit _].
  destruct (sitl_packet_round_trip no_target [70000; 0; 0; 0; 0; 0; 0; 0]
              (sample_state [] 0) eq_refl) as [_ Hbad].
  split.
  - destruct Hfit as (buf & Hrun & _).
    + repeat constructor; discriminate.
    + rewrite Hrun. symmetry. rewrite <- Hrun. reflexivity.
  - apply Hbad. constructor. right. discriminate.
Defined.

(** An index from 0 to [len(l) - 1] is written in place. *)
Lemma py_setitem_in_range {A : Type} (l : list A) (i : Z) (v : A) :
  0 <= i < Z.of_nat (length l) ->
  py_setitem l i v = Ok (<[Z.to_nat i := v]> l).
Proof.
  intros Hi. unfold py_setitem.
  destruct (Z.ltb_spec i 0); [lia |].
  destruct (Z.ltb_spec i 0); [lia |].
  destruct (Z.leb_spec (Z.of_nat (length l)) i); [lia | reflexivity].
Qed.

(** [rc <channel> <value>] with a channel from 1 to 8 writes the value
    into that entry of the override vector, 65535 (release) standing for
    -1, and leaves the other seven entries and the length alone; the
    vector is written whether or not the packet can then be sent.  With
    a SITL output and values that all fit sixteen bits, the packet
    written reads back as the new vector. *)
Theorem cmd_rc_sets_channel
    (channel value : Z) (sitl : bool) (target : Target)
    (override : list Z) (mp : MPState) :
  1 <= channel <= 8 ->
  length override = 8%nat ->
  let run := cmd_rc [channel; value] sitl target override mp in
  let override' := snd (fst run) in
  override'
  = <[Z.to_nat (channel - 1) := if value =? -1 then 65535 else value]>
      override /\
  length override' = 8%nat /\
  (forall j : nat, j <> Z.to_nat (channel - 1) ->
                   override' !! j = override !! j) /\
  (sitl = true ->
   Forall (fun v => 0 <= v < 2 ^ 16) override' ->
   exists buf : list byte,
     fst (fst run) = Ok [SitlWrite buf] /\ unpack_Hs 8 buf = override').
Proof.
  intros Hchannel Hlen. cbv zeta. unfold cmd_rc.
  destruct (Z.ltb_spec channel 1); [lia |].
  destruct (Z.gtb_spec channel 8); [lia |]. cbn [orb].
  rewrite py_setitem_in_range by (rewrite Hlen; lia).
  set (override' := <[_ := _]> override).
  assert (Hlen' : length override' = 8%nat)
    by (subst override'; now rewrite length_insert).
  destruct (send_rc_override sitl target override' mp) as [r mp'] eqn:Hsend.
  cbn [fst snd]. split; [reflexivity |]. split; [exact Hlen' |]. split.
  - intros j Hj. subst override'. now apply list_lookup_insert_ne.
  - intros -> Hfit. unfold send_rc_override, pack_8H in Hsend.
    rewrite Hlen' in Hsend. cbn [Nat.eqb] in Hsend.
    destruct (pack_Hs_round_trip override' Hfit)
      as (buf & Hpack & _ & Hback).
    rewrite Hpack in Hsend. injection Hsend as <- _.
    exists buf. rewrite Hlen' in Hback. now split.
Qed.

Lemma cmd_rc_sets_channel_witness :
  1 <= 3 <= 8 /\ length no_override = 8%nat /\
  snd (fst (cmd_rc [3; -1] true no_target no_override (sample_state [] 0)))
  = [0; 0; 65535; 0; 0; 0; 0; 0].
Proof.
  split; [split; discriminate | split; [reflexivity |]].
  destruct (cmd_rc_sets_channel 3 (-1) true no_target no_override
              (sample_state [] 0)) as (Hset & _);
    [split; discriminate | reflexivity |].
  rewrite Hset. reflexivity.
Defined.

(** Whatever the words, [cmd_rc] keeps the override vector eight long,
    and changes it only for a channel from 1 to 8: with any other
    channel, or with other than two words, the vector and the state are
    as before and nothing is sent. *)
Theorem cmd_rc_rejects
    (args : list Z) (sitl : bool) (target : Target)
    (override : list Z) (mp : MPState) :
  length override = 8%nat ->
  let run := cmd_rc args sitl target override mp in
  length (snd (fst run)) = 8%nat /\
  ((forall channel value : Z,
       args = [channel; value] -> channel < 1 \/ 8 < channel) ->
   snd (fst run) = override /\ snd run = mp /\
   exists line : string, fst (fst run) = Ok [RcPrint line []]).
Proof.
  intros Hlen. cbv zeta. unfold cmd_rc.
  destruct args as [|channel [|value [|extra rest]]];
    try (split; [exact Hlen | intros _; repeat split; eauto]).
  destruct (Z.ltb_spec channel 1) as [Hlow | Hlow]; cbn [orb].
  { split; [exact Hlen | intros _; repeat split; eauto]. }
  destruct (Z.gtb_spec channel 8) as [Hhigh | Hhigh].
  { split; [exact Hlen | intros _; repeat split; eauto]. }
  rewrite py_setitem_in_range by (rewrite Hlen; lia).
  destruct (send_rc_override sitl target _ mp) as [r mp'].
  cbn [fst snd]. split; [now rewrite length_insert |].
  intros Hbad. destruct (Hbad channel value eq_refl); lia.
Qed.

Lemma cmd_rc_rejects_witness :
  length no_override = 8%nat /\
  cmd_rc [9; 1500] true no_target no_override (sample_state [] 0)
  = (Ok [RcPrint "Channel must be between 1 and 8" []], no_override,
     sample_state [] 0).
Proof.
  split; [reflexivity |].
  destruct (cmd_rc_rejects [9; 1500] true no_target no_override
              (sample_state [] 0) eq_refl) as [_ Hsame].
  destruct Hsame as (Hvec & Hstate & line & Hout).
  - intros channel value [= <- <-]. right. reflexivity.
  - reflexivity.
Defined.

(** [switch <value>] with a value from 0 to 6, when the flight-mode
    channel ([FLTMODE_CH], or 8, or 5 for a quadcopter, when the
    parameter is not known) is a channel from 1 to 8: that entry of the
    override vector becomes 0 for value 0 and [1035 + 130 * value], from
    1165 to 1815, for the values 1 to 6; the other entries are as
    before.  With any other value nothing is changed or sent. *)
Theorem cmd_switch_sets_mode_channel
    (value : Z) (quadcopter sitl : bool) (target : Target)
    (override : list Z) (mp : MPState) :
  length override = 8%nat ->
  let channel :=
    py_int (get_mav_param "FLTMODE_CH"
                          (inject_Z (if quadcopter then 5 else 8)) mp) in
  let run := cmd_switch [value] quadcopter sitl target override mp in
  (0 <= value <= 6 -> 1 <= channel <= 8 ->
   snd (fst run)
   = <[Z.to_nat (channel - 1) :=
         if value =? 0 then 0 else 1035 + 130 * value]> override) /\
  (value < 0 \/ 6 < value ->
   run = (Ok [RcPrint
                "Invalid switch value. Use 1-6 for flight modes, '0' to disable"
                []],
          override, mp)).
Proof.
  intros Hlen. cbv zeta. unfold cmd_switch. split.
  - intros Hvalue Hchannel.
    destruct (Z.ltb_spec value 0); [lia |].
    destruct (Z.gtb_spec value 6); [lia |]. cbn [orb].
    assert (Hpwm : py_getitem [0; 1165; 1295; 1425; 1555; 1685; 1815] value
                   = Ok (Z.to_nat value,
                         if value =? 0 then 0 else 1035 + 130 * value)).
    { assert (Hcases : value = 0 \/ value = 1 \/ value = 2 \/ value = 3
                       \/ value = 4 \/ value = 5 \/ value = 6) by lia.
      destruct Hcases as [-> | [-> | [-> | [-> | [-> | [-> | ->]]]]]];
        reflexivity. }
    rewrite Hpwm.
    rewrite py_setitem_in_range by (rewrite Hlen; lia).
    destruct (send_rc_override sitl target _ mp) as [[sent | e] mp'];
      [| reflexivity].
    now destruct (value =? 0).
  - intros Hbad.
    destruct (Z.ltb_spec value 0) as [Hlow | Hlow]; [reflexivity |].
    destruct (Z.gtb_spec value 6); [reflexivity | lia].
Qed.

Lemma cmd_switch_sets_mode_channel_witness :
  length no_override = 8%nat /\
  snd (fst (cmd_switch [2] false true no_target no_override
                       (sample_state [] 0)))
  = [0; 0; 0; 0; 0; 0; 0; 1295].
Proof.
  split; [reflexivity |].
  destruct (cmd_switch_sets_mode_channel 2 false true no_target no_override
              (sample_state [] 0) eq_refl) as [Hset _].
  rewrite Hset; [reflexivity | split; discriminate | split; discriminate].
Defined.

(** ** Distance read-out *)

(** With a positive [distreadout]: what is announced is the distance to
    the waypoint rounded down to a multiple of [distreadout], never 0 and
    only in AUTO mode, and only when it is at least [distreadout] away
    from the last value kept; and once a message has been handled, any
    further message whose distance rounds to the same multiple is
    silent and changes nothing. *)
Theorem on_nav_controller_output_announces
    (wp_dist wp_dist' : Z) (flightmode : string) (distreadout last : Z) :
  0 < distreadout ->
  let last' := fst (on_nav_controller_output wp_dist flightmode
                                             distreadout last) in
  let out := snd (on_nav_controller_output wp_dist flightmode
                                           distreadout last) in
  (out = []
   \/ out = [Say "%u" [PInt last']] /\
      flightmode = "AUTO" /\
      last' <> 0 /\
      last' mod distreadout = 0 /\
      last' <= wp_dist < last' + distreadout /\
      distreadout <= Z.abs (last' - last)) /\
  (wp_dist' / distreadout = wp_dist / distreadout ->
   on_nav_controller_output wp_dist' flightmode distreadout last'
   = (last', [])).
Proof.
  intros Hd. cbv zeta. unfold on_nav_controller_output.
  destruct (String.eqb flightmode "AUTO") eqn:Hmode; cbn [andb];
    [| split; [now left | reflexivity]].
  apply String.eqb_eq in Hmode.
  destruct (Z.eqb_spec distreadout 0) as [Hzero | Hzero]; [lia |].
  cbn [negb].
  set (rounded := wp_dist / distreadout * distreadout).
  assert (Hmod : rounded mod distreadout = 0)
    by (subst rounded; apply Z.mod_mul; lia).
  assert (Hnear : rounded <= wp_dist < rounded + distreadout).
  { subst rounded. pose proof (Z.div_mod wp_dist distreadout ltac:(lia)).
    pose proof (Z.mod_pos_bound wp_dist distreadout Hd). lia. }
  destruct (Z.geb_spec (Z.abs (rounded - last)) distreadout) as [Hfar | Hclose];
    cbn [fst snd].
  - split.
    + destruct (Z.eqb_spec rounded 0) as [H0 | H0]; cbn [negb];
        [now left | right; repeat split; trivial; lia].
    + intros Hsame. rewrite Hsame. fold rounded.
      destruct (Z.geb_spec (Z.abs (rounded - rounded)) distreadout);
        [lia | reflexivity].
  - split; [now left |].
    intros Hsame. rewrite Hsame. fold rounded.
    destruct (Z.geb_spec (Z.abs (rounded - last)) distreadout);
      [lia | reflexivity].
Qed.

Lemma on_nav_controller_output_announces_witness :
  0 < 200 /\
  on_nav_controller_output 1234 "AUTO" 200 0 = (1200, [Say "%u" [PInt 1200]]) /\
  on_nav_controller_output 1399 "AUTO" 200 1200 = (1200, []).
Proof.
  split; [reflexivity |]. split; [reflexivity |].
  apply (on_nav_controller_output_announces 1234 1399 "AUTO" 200 0);
    reflexivity.
Defined.

(** ** Battery report *)

(** [int(x)] of a float that is not negative is its integer part. *)
Lemma py_int_floor (x : Q) : (0 <= x)%Q -> py_int x = Qfloor x.
Proof.
  destruct x as [n d]. unfold Qle, py_int, Qfloor. cbn. intros Hn.
  apply Z.quot_div_nonneg; lia.
Qed.

(** With [battreadout] on and a flight battery level of -5 or more,
    [battery_report] rounds the level to the nearest ten (halves go up)
    and keeps that as the last level announced; it announces the level
    exactly when the rounded level differs from the last one announced,
    and it adds the warning exactly when the level is below 25; nothing
    else is said, in particular nothing about the avionics battery. *)
Theorem battery_report_rounds
    (battreadout last : Z) (mp : MPState) :
  battreadout <> 0 ->
  (-5 <= Status.battery_level (status mp))%Q ->
  exists r : Z,
    r mod 10 = 0 /\
    (inject_Z r - 5 <= Status.battery_level (status mp) < inject_Z r + 5)%Q /\
    battery_report battreadout last mp
    = (r,
       (if r =? last then []
        else [Say "Flight battery %u percent" [PInt r]])
       ++ (if Qltb (Status.battery_level (status mp)) 25
           then [Say "Flight battery warning" []] else [])).
Proof.
  intros Hon Hlevel. unfold battery_report.
  destruct (Z.eqb_spec battreadout 0) as [H0 | _]; [contradiction |].
  set (level := Status.battery_level (status mp)) in *.
  set (q := ((level + 5) / 10)%Q).
  assert (Hq : (0 <= q)%Q).
  { subst q. apply Qle_shift_div_l; [reflexivity | lra]. }
  rewrite (py_int_floor q Hq).
  pose proof (Qfloor_le q) as Hlo. pose proof (Qlt_floor q) as Hhi.
  assert (Hq10 : (q * 10 == level + 5)%Q) by (subst q; field).
  set (k := Qfloor q) in *.
  assert (Hr : (inject_Z (k * 10) == inject_Z k * 10)%Q)
    by (rewrite inject_Z_mult; reflexivity).
  assert (Hk1 : (inject_Z (k + 1) == inject_Z k + 1)%Q)
    by (rewrite inject_Z_plus; reflexivity).
  rewrite Hk1 in Hhi.
  assert (Hbounds : (inject_Z (k * 10) - 5 <= level
                     < inject_Z (k * 10) + 5)%Q).
  { rewrite Hr. split; lra. }
  exists (k * 10). split; [apply Z.mod_mul; lia |]. split; [exact Hbounds |].
  assert (Hwarn : (k * 10 <=? 20) = Qltb level 25).
  { destruct (Qltb level 25) eqn:Hlt;
      [apply Qltb_true in Hlt | apply Qltb_false in Hlt].
    - apply Z.leb_le.
      assert (Hk : (inject_Z k < inject_Z 3)%Q)
        by (change (inject_Z 3) with 3%Q; lra).
      rewrite <- Zlt_Qlt in Hk. lia.
    - apply Z.leb_gt.
      assert (Hk : (inject_Z 3 < inject_Z (k + 1))%Q)
        by (rewrite Hk1; change (inject_Z 3) with 3%Q; lra).
      rewrite <- Zlt_Qlt in Hk. lia. }
  rewrite Hwarn.
  destruct (Z.eqb_spec (k * 10) last) as [Hsame | Hdiff]; cbn [negb].
  - destruct (Qltb level 25); now rewrite ?Hsame.
  - now destruct (Qltb level 25).
Qed.

Lemma battery_report_rounds_witness :
  1 <> 0 /\
  (-5 <= Status.battery_level (status initial_state_for_report))%Q /\
  battery_report 1 0 initial_state_for_report
  = (0, [Say "Flight battery warning" []]).
Proof.
  split; [discriminate | split; [discriminate |]].
  destruct (battery_report_rounds 1 0 initial_state_for_report)
    as (r & _ & _ & Hrun); [discriminate | discriminate |].
  rewrite Hrun. symmetry. rewrite <- Hrun. reflexivity.
Defined.

(** ** Servo mirror *)


